(** * salesforce-kpis: replay-cursor store, CDC dispatcher and first-touch detector

    A shallow embedding of
      - [app/cdc/replay_store.py]   (class [ReplayStore]),
      - [app/cdc/subscriber.py]     (class [CDCSubscriber]),
      - [app/workloads/first_touch.py] (class [FirstTouchDetector]),
    followed by the properties established about them.

    Conventions.
      - A Python call that may raise is a value of [exn + A]; a method that
        also mutates its object returns the new object next to it.  State
        reached before a [raise] is kept, as in Python.
      - Dictionaries are [gmap]s.
      - A [datetime] is a timezone-aware instant in UTC, counted in
        microseconds (the resolution of Python's [datetime]); a
        [pydatetime] is a Python [datetime] with its wall-clock fields and
        its offset, which a naive one lacks.
      - Floating-point results are doubles [mant * 2 ^ expo], rounded as
        IEEE 754 binary64 rounds. *)

From stdpp Require Import base decidable option list strings gmap pretty.
From Stdlib Require Import ZArith Lia Floats.SpecFloat.

Local Open Scope string_scope.
Local Open Scope Z_scope.

(** ** Python exceptions *)

Record exn := Exn { exn_type : string; exn_msg : string }.

(** [str(e)] *)
Definition str_exn (e : exn) : string := exn_msg e.

(** The classes that derive from [BaseException] without deriving from
    [Exception]; an [except Exception] clause lets them through. *)
Definition base_only : list string :=
  ["KeyboardInterrupt"; "SystemExit"; "GeneratorExit"].

Definition is_Exception (e : exn) : bool :=
  negb (bool_decide (exn_type e ∈ base_only)).

Definition FileNotFoundError : exn := Exn "FileNotFoundError" "No such file or directory".
Definition PermissionError : exn := Exn "PermissionError" "Permission denied".
Definition JSONDecodeError : exn := Exn "JSONDecodeError" "Expecting value".

(** ** app/cdc/replay_store.py *)

Module ReplayStore.

(** What the file at [self.path] holds: text that [json.loads] rejects, or
    a flat JSON object from channel to replay ID. *)
Inductive file_content :=
| Garbled (text : string)
| JsonObject (data : gmap string string).

(** The file behind a [ReplayStore].  It is missing (and the directory
    lets the process create it, or not), or it is there with some content
    and the process may or may not open it for reading and for writing, or
    it is there on a device that has no room left: then it still opens
    for writing, and what is written to it does not reach the disk. *)
Inductive t :=
| Missing (creatable : bool)
| Present (c : file_content) (readable writable : bool)
| Full (c : file_content) (readable : bool).

Definition OSError : exn := Exn "OSError" "No space left on device".

(** [self.path.read_text()] *)
Definition read_text (st : t) : exn + file_content :=
  match st with
  | Missing _ => inl FileNotFoundError
  | Present c readable _ => if readable then inr c else inl PermissionError
  | Full c readable => if readable then inr c else inl PermissionError
  end.

(** [json.loads(text)] *)
Definition json_loads (c : file_content) : exn + gmap string string :=
  match c with
  | Garbled _ => inl JSONDecodeError
  | JsonObject data => inr data
  end.

(** The body of the [try] in [_read]. *)
Definition load (st : t) : exn + gmap string string :=
  match read_text st with
  | inl e => inl e
  | inr c => json_loads c
  end.

(** [except (json.JSONDecodeError, FileNotFoundError)] *)
Definition swallowed (e : exn) : bool :=
  bool_decide (exn_type e ∈ ["JSONDecodeError"; "FileNotFoundError"]).

Definition _read (st : t) : exn + gmap string string :=
  match load st with
  | inr data => inr data
  | inl e => if swallowed e then inr ∅ else inl e
  end.

(** [self.path.write_text(json.dumps(data))]; the [except] clause logs
    and re-raises.  [write_text] opens the file with mode ['w'], which
    empties it, then writes.  A file that cannot be opened for writing is
    left as it was; a file the process creates is its own to read and
    write; a write that fails after the file was opened leaves the file
    empty, which is text that [json.loads] rejects. *)
Definition _write (data : gmap string string) (st : t) : (exn + unit) * t :=
  match st with
  | Missing creatable =>
      if creatable then (inr tt, Present (JsonObject data) true true)
      else (inl PermissionError, st)
  | Present _ readable writable =>
      if writable then (inr tt, Present (JsonObject data) readable writable)
      else (inl PermissionError, st)
  | Full _ readable => (inl OSError, Full (Garbled "") readable)
  end.

(** [__init__]: [if not self.path.exists(): self._write({})] *)
Definition init (st : t) : (exn + unit) * t :=
  match st with
  | Missing _ => _write ∅ st
  | Present _ _ _ | Full _ _ => (inr tt, st)
  end.

Definition get (channel : string) (st : t) : exn + option string :=
  match _read st with
  | inl e => inl e
  | inr data => inr (data !! channel)
  end.

Definition set (channel replay_id : string) (st : t) : (exn + unit) * t :=
  match _read st with
  | inl e => (inl e, st)
  | inr data => _write (<[channel := replay_id]> data) st
  end.

Definition get_all (st : t) : exn + gmap string string := _read st.

Definition clear (channel : option string) (st : t) : (exn + unit) * t :=
  match channel with
  | Some ch =>
      if bool_decide (ch = "") then _write ∅ st
      else match _read st with
           | inl e => (inl e, st)
           | inr data =>
               match data !! ch with
               | Some _ => _write (delete ch data) st
               | None => (inr tt, st)
               end
           end
  | None => _write ∅ st
  end.

End ReplayStore.

(** ** app/cdc/subscriber.py *)

Module CDCSubscriber.

(** A replay ID as it arrives in an event: an integer on the Pub/Sub
    wire, a string ([SystemModstamp]) for polled records. *)
Inductive pyval :=
| PyInt (z : Z)
| PyStr (s : string).

(** Python truthiness: [if replay_id:] *)
Definition truthy (v : pyval) : bool :=
  match v with
  | PyInt z => negb (z =? 0)
  | PyStr s => negb (bool_decide (s = ""))
  end.

(** [str(replay_id)] *)
Definition str (v : pyval) : string :=
  match v with
  | PyInt z => pretty z
  | PyStr s => s
  end.

Record header := Header {
  entityName : option string;
  recordIds : list string;
  changeType : option string;
  commitTimestamp : option Z
}.

Record payload := Payload {
  ChangeEventHeader : option header;
  fields : gmap string string
}.

Record event_info := EventInfo { replayId : option pyval }.

Record event_data := EventData {
  data_payload : option payload;
  data_event : option event_info
}.

Record event := Event {
  event_channel : option string;
  data : option event_data
}.

(** The [{}] defaults of the chained [.get(..., {})] lookups. *)
Definition no_header : header := Header None [] None None.
Definition no_payload : payload := Payload None ∅.
Definition no_info : event_info := EventInfo None.
Definition no_data : event_data := EventData None None.

(** [event.get('data', {}).get('payload', {})] *)
Definition payload_of (ev : event) : payload :=
  default no_payload (data_payload (default no_data (data ev))).

(** [payload.get('ChangeEventHeader', {})] *)
Definition header_of (p : payload) : header :=
  default no_header (ChangeEventHeader p).

(** [event.get('data', {}).get('event', {}).get('replayId')] *)
Definition replay_id_of (ev : event) : option pyval :=
  replayId (default no_info (data_event (default no_data (data ev)))).

(** A registered callback: it returns or raises. *)
Definition handler := payload → exn + unit.

(** What the dispatcher did, in the order it did it. *)
Inductive effect :=
| CursorSet (channel token : string)
| HandlerCalled (channel : string) (p : payload)
| HandlerRaised (channel : string) (e : exn)
| ErrorRecorded (channel : string) (e : exn).

Record t := Subscriber {
  replay_store : ReplayStore.t;
  handlers : gmap string handler;
  cdc_events_total : gmap (string * string) nat;
  cdc_lag_ms : gmap string Z;
  cdc_errors_total : gmap (string * string) nat;
  last_event_ts : gmap string Z;
  journal : list effect
}.

(** Computations over the subscriber that may raise. *)
Definition M (A : Type) : Type := t → (exn + A) * t.

Definition ret {A} (a : A) : M A := λ s, (inr a, s).
Definition raise {A} (e : exn) : M A := λ s, (inl e, s).
Definition bind {A B} (c : M A) (k : A → M B) : M B :=
  λ s, match c s with
       | (inr a, s') => k a s'
       | (inl e, s') => (inl e, s')
       end.
Definition modify (f : t → t) : M unit := λ s, (inr tt, f s).

(** [try: c  except Exception as e: h e] *)
Definition try_except {A} (c : M A) (h : exn → M A) : M A :=
  λ s, match c s with
       | (inr a, s') => (inr a, s')
       | (inl e, s') => if is_Exception e then h e s' else (inl e, s')
       end.

Declare Scope cdc_scope.
Delimit Scope cdc_scope with cdc.
Notation "c1 ;; c2" := (bind c1 (λ _, c2))
  (at level 100, right associativity) : cdc_scope.
Notation "x <- c1 ;; c2" := (bind c1 (λ x, c2))
  (at level 100, c1 at next level, right associativity) : cdc_scope.
Local Open Scope cdc_scope.

Definition log (e : effect) : M unit :=
  modify (λ s, Subscriber (replay_store s) (handlers s) (cdc_events_total s)
                 (cdc_lag_ms s) (cdc_errors_total s) (last_event_ts s)
                 (journal s ++ [e])).

Definition bump (k : string * string) (m : gmap (string * string) nat)
  : gmap (string * string) nat :=
  <[k := S (default 0%nat (m !! k))]> m.

(** [cdc_events_total.labels(object=..., change_type=...).inc()] *)
Definition inc_events (object_name change_type : string) : M unit :=
  modify (λ s, Subscriber (replay_store s) (handlers s)
                 (bump (object_name, change_type) (cdc_events_total s))
                 (cdc_lag_ms s) (cdc_errors_total s) (last_event_ts s)
                 (journal s)).

(** [cdc_errors_total.labels(object=..., error_type=...).inc()] *)
Definition inc_errors (object_name error_type : string) : M unit :=
  modify (λ s, Subscriber (replay_store s) (handlers s) (cdc_events_total s)
                 (cdc_lag_ms s)
                 (bump (object_name, error_type) (cdc_errors_total s))
                 (last_event_ts s) (journal s)).

(** The gauge is kept in milliseconds ([lag_ms]); the source divides by
    1000.0 before setting it. *)
Definition set_lag (object_name : string) (lag_ms now_ms : Z) : M unit :=
  modify (λ s, Subscriber (replay_store s) (handlers s) (cdc_events_total s)
                 (<[object_name := lag_ms]> (cdc_lag_ms s))
                 (cdc_errors_total s)
                 (<[object_name := now_ms]> (last_event_ts s))
                 (journal s)).

(** [self.replay_store.set(channel, token)] *)
Definition store_set (channel token : string) : M unit :=
  λ s, match ReplayStore.set channel token (replay_store s) with
       | (inr _, st) =>
           (inr tt, Subscriber st (handlers s) (cdc_events_total s)
                      (cdc_lag_ms s) (cdc_errors_total s) (last_event_ts s)
                      (journal s ++ [CursorSet channel token]))
       | (inl e, st) =>
           (inl e, Subscriber st (handlers s) (cdc_events_total s)
                     (cdc_lag_ms s) (cdc_errors_total s) (last_event_ts s)
                     (journal s))
       end.

(** [handler(payload)] *)
Definition call (channel : string) (h : handler) (p : payload) : M unit :=
  log (HandlerCalled channel p) ;;
  match h p with
  | inr _ => ret tt
  | inl e => log (HandlerRaised channel e) ;; raise e
  end.

Definition register_handler (channel : string) (h : handler) (s : t) : t :=
  Subscriber (replay_store s) (<[channel := h]> (handlers s))
    (cdc_events_total s) (cdc_lag_ms s) (cdc_errors_total s)
    (last_event_ts s) (journal s).

(** [sub in s] *)
Fixpoint contains (sub s : string) : bool :=
  String.prefix sub s ||
  match s with
  | EmptyString => false
  | String _ s' => contains sub s'
  end.

Definition _extract_object_name (channel : string) : string :=
  if contains "Lead" channel then "Lead"
  else if contains "Task" channel then "Task"
  else if contains "EmailMessage" channel then "EmailMessage"
  else "Unknown".

(** "Update metrics" and "Calculate lag"; [now_ms] is what
    [int(time.time() * 1000)] reads. *)
Definition update_metrics (channel : string) (ev : event) (now_ms : Z)
  : M unit :=
  let object_name := _extract_object_name channel in
  let header := header_of (payload_of ev) in
  let change_type := default "UNKNOWN" (changeType header) in
  inc_events object_name change_type ;;
  match commitTimestamp header with
  | Some commit_timestamp =>
      if negb (commit_timestamp =? 0)
      then set_lag object_name (now_ms - commit_timestamp) now_ms
      else ret tt
  | None => ret tt
  end.

(** "Extract and persist replay ID" *)
Definition persist_replay_id (channel : string) (ev : event) : M unit :=
  let replay_id := replay_id_of ev in
  match replay_id with
  | Some rid => if truthy rid then store_set channel (str rid) else ret tt
  | None => ret tt
  end.

(** "Call handler" *)
Definition call_handler (channel : string) (ev : event) : M unit :=
  h <- (λ s, (inr (handlers s !! channel), s)) ;;
  match h with
  | Some handler => call channel handler (payload_of ev)
  | None => ret tt
  end.

(** The [try] block of [_process_event]. *)
Definition process_body (channel : string) (ev : event) (now_ms : Z)
  : M unit :=
  update_metrics channel ev now_ms ;;
  persist_replay_id channel ev ;;
  call_handler channel ev.

(** The [except Exception as e] block: log, count by exception class. *)
Definition on_error (channel : string) (e : exn) : M unit :=
  log (ErrorRecorded channel e) ;;
  inc_errors (_extract_object_name channel) (exn_type e).

Definition _process_event (channel : string) (ev : event) (now_ms : Z)
  : M unit :=
  try_except (process_body channel ev now_ms) (on_error channel).


(** The dictionary [_convert_to_cdc_event] builds from a polled record,
    whose values are strings.  [**record] is spread after the
    ['ChangeEventHeader'] key of the payload, so a field of that name in
    the record takes the place of the header built from the arguments. *)
Record converted := Converted {
  conv_channel : string;
  conv_header : header + string;
  conv_fields : gmap string string;
  conv_replayId : string
}.

(** [_convert_to_cdc_event]; [record['Id']] raises when the key is
    missing, [record.get('SystemModstamp', '')] does not. *)
Definition _convert_to_cdc_event (channel object_name : string)
    (record : gmap string string) (now_ms : Z) : exn + converted :=
  match record !! "Id" with
  | None => inl (Exn "KeyError" "'Id'")
  | Some id =>
      inr (Converted channel
             (match record !! "ChangeEventHeader" with
              | Some text => inr text
              | None =>
                  inl (Header (Some object_name) [id] (Some "UPDATE")
                         (Some now_ms))
              end)
             (delete "ChangeEventHeader" record)
             (default "" (record !! "SystemModstamp")))
  end.

(** The converted dictionary as an envelope, given its header. *)
Definition envelope (c : converted) (h : header) : event :=
  Event (Some (conv_channel c))
    (Some (EventData (Some (Payload (Some h) (conv_fields c)))
             (Some (EventInfo (Some (PyStr (conv_replayId c))))))).

Definition AttributeError : exn :=
  Exn "AttributeError" "'str' object has no attribute 'get'".

(** [_process_event] on a converted dictionary.  When the record's own
    [ChangeEventHeader] took the place of the header, [header] is a string
    and [header.get('changeType', 'UNKNOWN')], the first statement to use
    it, raises [AttributeError] inside the [try]. *)
Definition _process_converted (channel : string) (c : converted) (now_ms : Z)
  : M unit :=
  match conv_header c with
  | inl h => _process_event channel (envelope c h) now_ms
  | inr _ => try_except (raise AttributeError) (on_error channel)
  end.

(** What one call of [_process_event] appended to the journal. *)
Definition effects_of (channel : string) (ev : event) (now_ms : Z) (s : t)
  : list effect :=
  drop (length (journal s)) (journal (snd (_process_event channel ev now_ms s))).

End CDCSubscriber.

(** ** app/workloads/first_touch.py *)

Module FirstTouch.

(** A timezone-aware datetime in UTC, which is what
    [dateutil.parser.parse] returns for the text of a Salesforce datetime
    field: microseconds since the epoch. *)
Definition datetime := Z.

Definition second : Z := 1000000.
Definition minute : Z := 60 * second.

(** A Python [datetime] as a caller may pass it: its wall-clock fields
    (year to microsecond), counted in microseconds as if they were read in
    UTC, and its [utcoffset()] in microseconds, [None] for a naive one. *)
Record pydatetime := PyDateTime {
  wall : Z;
  utcoffset : option Z
}.

(** An aware datetime in UTC is a Python [datetime] with offset zero. *)
Definition utc (dt : datetime) : pydatetime := PyDateTime dt (Some 0).

(** The instant an aware datetime denotes; a naive one denotes none. *)
Definition instant (dt : pydatetime) : option datetime :=
  match utcoffset dt with
  | Some offset => Some (wall dt - offset)
  | None => None
  end.

Definition compare_TypeError : exn :=
  Exn "TypeError" "can't compare offset-naive and offset-aware datetimes".
Definition subtract_TypeError : exn :=
  Exn "TypeError" "can't subtract offset-naive and offset-aware datetimes".

(** [existing_dt <= candidate_dt] for an aware [existing_dt]: aware
    datetimes compare by instant, and a naive one does not compare. *)
Definition le_dt (existing_dt : datetime) (candidate_dt : pydatetime)
  : exn + bool :=
  match instant candidate_dt with
  | Some t => inr (existing_dt <=? t)
  | None => inl compare_TypeError
  end.

(** [candidate_dt - created_dt] for an aware [created_dt]: the
    [timedelta], in microseconds. *)
Definition sub_dt (candidate_dt : pydatetime) (created_dt : datetime)
  : exn + Z :=
  match instant candidate_dt with
  | Some t => inr (t - created_dt)
  | None => inl subtract_TypeError
  end.

(** *** Floating point

    [total_seconds()] and [/ 60] compute in IEEE 754 binary64.  A finite
    double is [mant * 2 ^ expo]; a result is the quotient of two integers
    rounded to 53 bits, to nearest, ties to even.  Overflow and subnormal
    numbers are out of reach of the quotients taken here (a [timedelta]
    is below [2 ^ 47] seconds and a non-zero one is at least a
    microsecond), and are not modelled. *)
Record double := Double { mant : Z; expo : Z }.

Definition round_half_even (num den : Z) : Z :=
  let n := num / den in
  let r := num mod den in
  if 2 * r <? den then n
  else if den <? 2 * r then n + 1
  else if Z.even n then n else n + 1.

(** The double nearest to [a / q], for positive [a] and [q]: the
    exponent is chosen so that the quotient has 53 bits. *)
Definition nearest_pos (a q : Z) : double :=
  let e1 := Z.log2 a - Z.log2 q - 52 in
  let scaled e := (a * 2 ^ Z.max (- e) 0) / (q * 2 ^ Z.max e 0) in
  let e := if 2 ^ 52 <=? scaled e1 then e1 else e1 - 1 in
  Double (round_half_even (a * 2 ^ Z.max (- e) 0) (q * 2 ^ Z.max e 0)) e.

Definition nearest_double (num den : Z) : double :=
  if num =? 0 then Double 0 0
  else if 0 <? num then nearest_pos num den
  else let d := nearest_pos (- num) den in Double (- mant d) (expo d).

(** [timedelta.total_seconds()]: the microseconds over [10**6], as a
    correctly rounded division of integers. *)
Definition total_seconds (microseconds : Z) : double :=
  nearest_double microseconds 1000000.

(** [x / n] for a double [x] and a small positive integer [n]. *)
Definition div_by (x : double) (n : Z) : double :=
  nearest_double (mant x * 2 ^ Z.max (expo x) 0) (n * 2 ^ Z.max (- expo x) 0).

(** [int(x)]: truncation toward zero. *)
Definition int_of (x : double) : Z :=
  (mant x * 2 ^ Z.max (expo x) 0) ÷ 2 ^ Z.max (- expo x) 0.

(** A double as a float of the Standard Library's specification of
    IEEE 754, and the division of binary64 there. *)
Definition spec_of (x : double) : spec_float :=
  if mant x =? 0 then S754_zero false
  else S754_finite (mant x <? 0) (Z.to_pos (Z.abs (mant x))) (expo x).

Definition binary64_div (x y : spec_float) : spec_float := SFdiv 53 1024 x y.

(** The text of a Salesforce datetime field, by what
    [dateutil.parser.parse] makes of it: text it rejects (the empty
    string included), or text that denotes an instant and says so with
    [Z] or a numeric offset, as the texts of the service and of [iso] do:
    [dateutil] reads it as an aware datetime. *)
Inductive dt_text :=
| Unparseable (raw : string)
| IsoText (dt : datetime).

(** [date_parser.parse(dt_str)] *)
Definition date_parser_parse (s : dt_text) : exn + datetime :=
  match s with
  | Unparseable raw => inl (Exn "ParserError" raw)
  | IsoText dt => inr dt
  end.

(** [not dt_str] on a string *)
Definition empty_text (s : dt_text) : bool :=
  match s with
  | Unparseable raw => bool_decide (raw = "")
  | IsoText _ => false
  end.

Definition parse_dt (dt_str : option dt_text) : option datetime :=
  match dt_str with
  | None => None
  | Some s =>
      if empty_text s then None
      else match date_parser_parse s with
           | inr dt => Some dt
           | inl _ => None
           end
  end.

(** [dt.strftime('%Y-%m-%dT%H:%M:%S.000Z')]: the wall-clock fields of
    [dt] are printed down to the second, followed by a literal [Z]; the
    offset of [dt] plays no part.  The text reads back as the start of
    that wall-clock second, in UTC. *)
Definition iso (dt : pydatetime) : dt_text :=
  IsoText (wall dt - wall dt mod second).

(** The fields of a Lead that [get_record] is asked for. *)
Record lead := Lead {
  Id : string;
  CreatedDate : option dt_text;
  First_Response_At__c : option dt_text;
  First_Response_User__c : option string;
  First_Response_Source__c : option string;
  Time_to_First_Response__c : option Z
}.

(** The dictionary handed to [update_record]. *)
Record update := Update {
  upd_First_Response_At__c : dt_text;
  upd_First_Response_User__c : string;
  upd_First_Response_Source__c : string;
  upd_Time_to_First_Response__c : Z
}.

Definition patch (u : update) (l : lead) : lead :=
  Lead (Id l) (CreatedDate l)
    (Some (upd_First_Response_At__c u))
    (Some (upd_First_Response_User__c u))
    (Some (upd_First_Response_Source__c u))
    (Some (upd_Time_to_First_Response__c u)).

(** The two queries of [find_and_record_first_touch]. *)
Inductive soql :=
| task_soql (lead_id : string)
| email_soql (lead_id : string).

(** A row of a query result: its [Id], its date column ([CreatedDate] of a
    Task, [MessageDate] of an EmailMessage) and its user column
    ([OwnerId], [CreatedById]). *)
Record row := Row {
  row_Id : string;
  row_date : option dt_text;
  row_user : string
}.

(** The record store behind [self.sf]: the Lead table, what each query
    answers, the log of the [update_record] calls that went through, and
    the error, if any, with which the service refuses an update (the
    client raises on every HTTP error). *)
Record sf_client := Client {
  leads : gmap string lead;
  answers : soql → exn + list row;
  update_calls : list (string * string * update);
  update_error : option exn
}.

Definition NotFound (record_id : string) : exn := Exn "NotFound" record_id.

Definition get_record (sf : sf_client) (sobject record_id : string)
  : exn + lead :=
  if bool_decide (sobject = "Lead") then
    match leads sf !! record_id with
    | Some l => inr l
    | None => inl (NotFound record_id)
    end
  else inl (NotFound record_id).

Definition update_record (sf : sf_client) (sobject record_id : string)
    (data : update) : (exn + unit) * sf_client :=
  if bool_decide (sobject = "Lead") then
    match leads sf !! record_id with
    | Some l =>
        match update_error sf with
        | Some e => (inl e, sf)
        | None =>
            (inr tt,
             Client (<[record_id := patch data l]> (leads sf)) (answers sf)
               (update_calls sf ++ [(sobject, record_id, data)]) None)
        end
    | None => (inl (NotFound record_id), sf)
    end
  else (inl (NotFound record_id), sf).

Definition query (sf : sf_client) (q : soql) : exn + list row := answers sf q.

(** How a call of [detect_first_touch] ends: with one of the
    dictionaries it returns, or with an exception it lets through. *)
Inductive result :=
| Error (error : string)
| Skipped (reason : string) (existing_dt : datetime) (candidate_dt : pydatetime)
| Updated (lead_id : string) (first_response_at : pydatetime)
    (first_response_user_id first_response_source : string)
    (ttfr_minutes : Z) (ttfr_seconds : double) (replaced_existing : bool)
| Raised (e : exn).

(** [int((candidate_dt - created_dt).total_seconds() / 60)] for a
    candidate at the instant [candidate_dt]. *)
Definition ttfr_minutes_of (candidate_dt created_dt : datetime) : Z :=
  int_of (div_by (total_seconds (candidate_dt - created_dt)) 60).

(** The comparison with the existing response and the subtraction of the
    creation date stand outside every [try]: what they raise leaves the
    call. *)
Definition detect_first_touch (sf : sf_client) (lead_id : string)
    (candidate_dt : pydatetime) (user_id source : string)
  : result * sf_client :=
  match get_record sf "Lead" lead_id with
  | inl e => (Error (str_exn e), sf)
  | inr lead =>
      let existing_dt := parse_dt (First_Response_At__c lead) in
      let record :=
        match parse_dt (CreatedDate lead) with
        | None => (Error "Missing CreatedDate", sf)
        | Some created_dt =>
            match sub_dt candidate_dt created_dt with
            | inl e => (Raised e, sf)
            | inr delta =>
                let ttfr_seconds := total_seconds delta in
                let ttfr_minutes := int_of (div_by ttfr_seconds 60) in
                match update_record sf "Lead" lead_id
                        (Update (iso candidate_dt) user_id source ttfr_minutes) with
                | (inr _, sf') =>
                    (Updated lead_id candidate_dt user_id source
                       ttfr_minutes ttfr_seconds
                       (bool_decide (is_Some existing_dt)),
                     sf')
                | (inl e, sf') => (Error (str_exn e), sf')
                end
            end
        end in
      match existing_dt with
      | Some existing =>
          match le_dt existing candidate_dt with
          | inl e => (Raised e, sf)
          | inr true => (Skipped "existing_earlier" existing candidate_dt, sf)
          | inr false => record
          end
      | None => record
      end
  end.

(** [tasks[0]['CreatedDate']] / [emails[0]['MessageDate']] when the
    result is not empty. *)
Definition earliest_dt (rows : list row) : option datetime :=
  match rows with
  | r :: _ => parse_dt (row_date r)
  | [] => None
  end.

Definition first_user (rows : list row) : string :=
  match rows with
  | r :: _ => row_user r
  | [] => ""
  end.

Definition find_and_record_first_touch (sf : sf_client) (lead_id : string)
  : option result * sf_client :=
  match query sf (task_soql lead_id) with
  | inl e => (Some (Error (str_exn e)), sf)
  | inr tasks =>
      match query sf (email_soql lead_id) with
      | inl e => (Some (Error (str_exn e)), sf)
      | inr emails =>
          let earliest_task_dt := earliest_dt tasks in
          let earliest_email_dt := earliest_dt emails in
          let task_user_id := first_user tasks in
          let email_user_id := first_user emails in
          let found r := (Some (fst r), snd r) in
          match earliest_task_dt, earliest_email_dt with
          | Some task_dt, Some email_dt =>
              if task_dt <=? email_dt
              then found (detect_first_touch sf lead_id (utc task_dt) task_user_id "Task")
              else found (detect_first_touch sf lead_id (utc email_dt) email_user_id "EmailMessage")
          | Some task_dt, None =>
              found (detect_first_touch sf lead_id (utc task_dt) task_user_id "Task")
          | None, Some email_dt =>
              found (detect_first_touch sf lead_id (utc email_dt) email_user_id "EmailMessage")
          | None, None => (None, sf)
          end
      end
  end.

(** A first-response candidate, and the delivery of a sequence of them
    to [detect_first_touch], one call per element. *)
Record candidate := Candidate {
  responded_at : pydatetime;
  responder_id : string;
  source : string
}.

Definition deliver (lead_id : string) (sf : sf_client) (c : candidate)
  : sf_client :=
  snd (detect_first_touch sf lead_id (responded_at c) (responder_id c) (source c)).

Definition deliver_all (lead_id : string) (cs : list candidate)
    (sf : sf_client) : sf_client :=
  foldl (deliver lead_id) sf cs.

(** The timestamp of a candidate, as an instant; the fields of a naive
    one are read in UTC. *)
Definition moment (c : candidate) : datetime :=
  wall (responded_at c) - default 0 (utcoffset (responded_at c)).

(** The earliest timestamp of a sequence of candidates. *)
Fixpoint earliest (cs : list candidate) : option datetime :=
  match cs with
  | [] => None
  | c :: rest =>
      match earliest rest with
      | None => Some (moment c)
      | Some m => Some (Z.min (moment c) m)
      end
  end.

Definition whole_second (dt : datetime) : Prop := dt mod second = 0.

(** An aware datetime in UTC. *)
Definition in_utc (dt : pydatetime) : Prop := utcoffset dt = Some 0.

(** The Lead Response State of a lead in the record store. *)
Definition first_response_at (sf : sf_client) (lead_id : string)
  : option datetime :=
  match leads sf !! lead_id with
  | Some l => parse_dt (First_Response_At__c l)
  | None => None
  end.

Definition time_to_first_response_minutes (sf : sf_client) (lead_id : string)
  : option Z :=
  match leads sf !! lead_id with
  | Some l => Time_to_First_Response__c l
  | None => None
  end.

(** The record store accepts updates, the lead [lead_id] was created at
    [created_dt] and has response [o] recorded: nothing, or the instant
    [m] with the minutes that go with it. *)
Definition recorded (sf : sf_client) (lead_id : string) (created_dt : datetime)
    (o : option datetime) : Prop :=
  update_error sf = None ∧
  ∃ l, leads sf !! lead_id = Some l ∧
       parse_dt (CreatedDate l) = Some created_dt ∧
       match o with
       | None => First_Response_At__c l = None
       | Some m =>
           First_Response_At__c l = Some (IsoText m) ∧
           Time_to_First_Response__c l = Some (ttfr_minutes_of m created_dt)
       end.

(** The earlier of what is recorded and a new timestamp. *)
Definition earlier (o : option datetime) (dt : datetime) : option datetime :=
  match o with
  | None => Some dt
  | Some m => Some (Z.min m dt)
  end.

End FirstTouch.

Coercion FirstTouch.utc : FirstTouch.datetime >-> FirstTouch.pydatetime.
(** ** app/cdc/subscriber.py: polling and health *)

Module Polling.
Import CDCSubscriber.
Local Open Scope cdc_scope.

(** [sub] occurs in [s]: what Python's [sub in s] decides. *)
Definition occurs_in (sub s : string) : Prop :=
  ∃ pre post, s = pre +:+ sub +:+ post.

(** [self.channels] *)
Definition channels : list string :=
  ["/data/LeadChangeEvent"; "/data/TaskChangeEvent";
   "/data/EmailMessageChangeEvent"].

(** A record as [self.sf.query] returns it. *)
Abbreviation record := (gmap string string).

Definition _build_poll_query (object_name last_poll : string) : string :=
  "
            SELECT Id, SystemModstamp, CreatedDate, LastModifiedDate
            FROM " +:+ object_name +:+ "
            WHERE SystemModstamp > " +:+ last_poll +:+ "
            ORDER BY SystemModstamp ASC
            LIMIT 100
        ".

(** The loop [for record in records:] of [start_polling]: convert, then
    process.  The clock is read once for the batch. *)
Fixpoint process_records (channel object_name : string)
    (records : list record) (now_ms : Z) : M unit :=
  match records with
  | [] => ret tt
  | r :: rest =>
      match _convert_to_cdc_event channel object_name r now_ms with
      | inl e => raise e
      | inr ev =>
          _process_converted channel ev now_ms ;;
          process_records channel object_name rest now_ms
      end
  end.

(** The [try] block of [start_polling] for one channel.  [utcnow] is
    [datetime.utcnow().isoformat()], [sf_query] is [self.sf.query]; the
    result is [last_poll_times] as the block leaves it. *)
Definition poll_body (channel utcnow : string) (now_ms : Z)
    (sf_query : string → exn + list record)
    (last_poll_times : gmap string string)
  : t → (exn + gmap string string) * t :=
  λ s,
    let object_name := _extract_object_name channel in
    let last_poll := default (utcnow +:+ "Z") (last_poll_times !! object_name) in
    let soql := _build_poll_query object_name last_poll in
    match sf_query soql with
    | inl e => (inl e, s)
    | inr records =>
        match last records with
        | None => (inr last_poll_times, s)
        | Some last_record =>
            match process_records channel object_name records now_ms s with
            | (inl e, s') => (inl e, s')
            | (inr _, s') =>
                match last_record !! "SystemModstamp" with
                | None => (inl (Exn "KeyError" "'SystemModstamp'"), s')
                | Some stamp =>
                    (inr (<[object_name := stamp]> last_poll_times), s')
                end
            end
        end
    end.

(** One channel of one tick: the [try] block and its
    [except Exception] clause, which counts a [polling_error]. *)
Definition poll_channel (channel utcnow : string) (now_ms : Z)
    (sf_query : string → exn + list record)
    (last_poll_times : gmap string string)
  : t → (exn + gmap string string) * t :=
  λ s,
    match poll_body channel utcnow now_ms sf_query last_poll_times s with
    | (inr times, s') => (inr times, s')
    | (inl e, s') =>
        if is_Exception e
        then (inr last_poll_times,
              snd (inc_errors (_extract_object_name channel) "polling_error" s'))
        else (inl e, s')
    end.

(** One tick: [for channel in self.channels]. *)
Fixpoint poll_channels (chs : list string) (utcnow : string) (now_ms : Z)
    (sf_query : string → exn + list record)
    (last_poll_times : gmap string string)
  : t → (exn + gmap string string) * t :=
  λ s,
    match chs with
    | [] => (inr last_poll_times, s)
    | channel :: rest =>
        match poll_channel channel utcnow now_ms sf_query last_poll_times s with
        | (inr times, s') => poll_channels rest utcnow now_ms sf_query times s'
        | (inl e, s') => (inl e, s')
        end
    end.

Definition poll_tick := poll_channels channels.



(** The store file is there, holds a JSON object, and can be read and
    written. *)
Definition healthy (st : ReplayStore.t) : Prop :=
  ∃ data, st = ReplayStore.Present (ReplayStore.JsonObject data) true true.

End Polling.

(** ** app/workloads/first_touch.py: the lead a delivery leaves *)

Module Recorded.
Import FirstTouch.

(** The lead [l], created at [created_dt], with the candidate [c] written
    into its four response fields. *)
Definition with_response (l : lead) (created_dt : datetime) (c : candidate)
  : lead :=
  Lead (Id l) (CreatedDate l)
    (Some (iso (responded_at c)))
    (Some (responder_id c))
    (Some (source c))
    (Some (ttfr_minutes_of (moment c) created_dt)).

End Recorded.

(** ** Sample data, after the repository's tests *)

Module Samples.
Import CDCSubscriber.

Definition lead_channel : string := "/data/LeadChangeEvent".

Definition lead_payload : payload :=
  Payload (Some (Header (Some "Lead") ["00Qxx0000012345"] (Some "CREATE")
                   (Some 1736935200000)))
    {["Company" := "Acme Corp"]}.

(** A Lead creation event with replay ID 42183991. *)
Definition lead_create : event :=
  Event (Some lead_channel)
    (Some (EventData (Some lead_payload) (Some (EventInfo (Some (PyInt 42183991)))))).

(** The same event with an empty replay ID, as [_convert_to_cdc_event]
    builds it for a record without [SystemModstamp]. *)
Definition lead_polled : event :=
  Event (Some lead_channel)
    (Some (EventData (Some lead_payload) (Some (EventInfo (Some (PyStr "")))))).

Definition ok_handler : handler := λ _, inr tt.
Definition failing_handler : handler := λ _, inl (Exn "ValueError" "bad payload").

(** A subscriber over a freshly initialised store, with one handler
    registered on the Lead channel. *)
Definition subscriber_with (h : handler) : t :=
  register_handler lead_channel h
    (Subscriber (ReplayStore.Present (ReplayStore.JsonObject ∅) true true)
       ∅ ∅ ∅ ∅ ∅ []).

Definition now_ms : Z := 1736935260000.

(** 2025-01-15 at the given time of day, UTC. *)
Definition on_day (h m s : Z) : FirstTouch.datetime :=
  (1736899200 + h * 3600 + m * 60 + s) * FirstTouch.second.

Definition lead_id : string := "00Qxx0000012345".

(** A lead created at 10:00:00 with no response recorded. *)
Definition new_lead : FirstTouch.lead :=
  FirstTouch.Lead lead_id (Some (FirstTouch.IsoText (on_day 10 0 0)))
    None None None None.

(** The same lead with a Task response by U3 recorded at 10:20:00. *)
Definition answered_lead : FirstTouch.lead :=
  FirstTouch.Lead lead_id (Some (FirstTouch.IsoText (on_day 10 0 0)))
    (Some (FirstTouch.IsoText (on_day 10 20 0))) (Some "U3") (Some "Task")
    (Some 20).

(** The same lead with text that is not a date in [First_Response_At__c]. *)
Definition corrupt_lead : FirstTouch.lead :=
  FirstTouch.Lead lead_id (Some (FirstTouch.IsoText (on_day 10 0 0)))
    (Some (FirstTouch.Unparseable "yesterday-ish")) (Some "U3") (Some "Task")
    (Some 20).

(** The same lead with a null [CreatedDate]. *)
Definition undated_lead : FirstTouch.lead :=
  FirstTouch.Lead lead_id None None None None None.

(** The queries find a Task at 10:30:00 by U1 and an EmailMessage at
    10:25:00 by U2. *)
Definition two_sources (q : FirstTouch.soql) : exn + list FirstTouch.row :=
  match q with
  | FirstTouch.task_soql _ =>
      inr [FirstTouch.Row "00T" (Some (FirstTouch.IsoText (on_day 10 30 0))) "U1"]
  | FirstTouch.email_soql _ =>
      inr [FirstTouch.Row "02s" (Some (FirstTouch.IsoText (on_day 10 25 0))) "U2"]
  end.

Definition store_of (l : FirstTouch.lead) : FirstTouch.sf_client :=
  FirstTouch.Client {[lead_id := l]} two_sources [] None.

Definition task_candidate : FirstTouch.candidate :=
  FirstTouch.Candidate (on_day 10 30 0) "U1" "Task".

Definition email_candidate : FirstTouch.candidate :=
  FirstTouch.Candidate (on_day 10 25 0) "U2" "EmailMessage".

(** A Task completed half a second after 10:30:00. *)
Definition late_task_candidate : FirstTouch.candidate :=
  FirstTouch.Candidate (FirstTouch.utc (on_day 10 30 0 + 500000)) "U1" "Task".

(** 15:00:00 at the offset +05:30, which is 09:30:00 in UTC. *)
Definition offset_candidate_dt : FirstTouch.pydatetime :=
  FirstTouch.PyDateTime (on_day 15 0 0) (Some (19800 * FirstTouch.second)).

(** A record store whose service answers every update with an error. *)
Definition refusing_store_of (l : FirstTouch.lead) : FirstTouch.sf_client :=
  FirstTouch.Client {[lead_id := l]} two_sources []
    (Some (Exn "HTTPError" "503 Server Error: Service Unavailable")).

(** A second lead, created at 09:00:00, with no response recorded. *)
Definition other_lead : FirstTouch.lead :=
  FirstTouch.Lead "00Qxx0000067890" (Some (FirstTouch.IsoText (on_day 9 0 0)))
    None None None None.

(** A subscriber whose store file is on a device with no room left. *)
Definition full_disk_subscriber (h : handler) : t :=
  register_handler lead_channel h
    (Subscriber (ReplayStore.Full
                   (ReplayStore.JsonObject {["/data/TaskChangeEvent" := "77"]})
                   true)
       ∅ ∅ ∅ ∅ ∅ []).

(** A handler interrupted from the keyboard. *)
Definition interrupted_handler : handler := λ _, inl (Exn "KeyboardInterrupt" "").

(** A subscriber whose store file cannot be written. *)
Definition read_only_subscriber (h : handler) : t :=
  register_handler lead_channel h
    (Subscriber (ReplayStore.Present (ReplayStore.JsonObject ∅) true false)
       ∅ ∅ ∅ ∅ ∅ []).

(** A Lead as the polling query returns it. *)
Definition polled_lead : gmap string string :=
  <["Id" := "00Qxx0000012345"]>
    (<["SystemModstamp" := "2025-01-15T10:30:00.000+0000"]>
       {["CreatedDate" := "2025-01-15T10:00:00.000+0000"]}).

(** A row that came back without its [Id]. *)
Definition polled_without_id : gmap string string :=
  {["SystemModstamp" := "2025-01-15T10:31:00.000+0000"]}.

(** The queries find a Task whose date does not parse and an
    EmailMessage at 10:25:00 by U2. *)
Definition bad_task_source (q : FirstTouch.soql) : exn + list FirstTouch.row :=
  match q with
  | FirstTouch.task_soql _ =>
      inr [FirstTouch.Row "00T" (Some (FirstTouch.Unparseable "soon")) "U1"]
  | FirstTouch.email_soql _ =>
      inr [FirstTouch.Row "02s" (Some (FirstTouch.IsoText (on_day 10 25 0))) "U2"]
  end.

Definition store_with_bad_task (l : FirstTouch.lead) : FirstTouch.sf_client :=
  FirstTouch.Client {[lead_id := l]} bad_task_source [] None.

(** A polled record with a field named [ChangeEventHeader]. *)
Definition polled_with_header_field : gmap string string :=
  <["Id" := "00Qxx0000012345"]>
    (<["ChangeEventHeader" := "x"]> {["SystemModstamp" := "s1"]}).

(** A service whose Lead query times out and whose other queries find
    nothing. *)
Definition failing_lead_query (soql : string) : exn + list (gmap string string) :=
  if contains "FROM Lead" soql
  then inl (Exn "ConnectionError" "timed out")
  else inr [].

(** The same, with one record found by the Task query. *)
Definition lead_query_down (soql : string) : exn + list (gmap string string) :=
  if contains "FROM Lead" soql
  then inl (Exn "ConnectionError" "timed out")
  else if contains "FROM Task" soql then inr [polled_lead]
  else inr [].

(** The store of two leads: the answered one and another. *)
Definition two_lead_store : FirstTouch.sf_client :=
  FirstTouch.Client
    (<[lead_id := answered_lead]> {["00Qxx0000067890" := other_lead]})
    two_sources [] None.

(** 2025-11-01 at the given time of day, as the naive [datetime] the
    repository's tests build, and the lead of
    [test_first_touch_candidate_later]: created at 10:00:00, with a first
    response at 10:30:00, both written by [iso]. *)
Definition on_nov_1 (h m s : Z) : FirstTouch.pydatetime :=
  FirstTouch.PyDateTime
    ((1761955200 + h * 3600 + m * 60 + s) * FirstTouch.second) None.

Definition test_lead_id : string := "00Q5e000001AbcD".

Definition test_lead : FirstTouch.lead :=
  FirstTouch.Lead test_lead_id
    (Some (FirstTouch.iso (on_nov_1 10 0 0)))
    (Some (FirstTouch.iso (on_nov_1 10 30 0)))
    (Some "0055e000000User2") None None.

Definition test_store : FirstTouch.sf_client :=
  FirstTouch.Client {[test_lead_id := test_lead]} (λ _, inr []) [] None.

End Samples.

(** * Properties *)

(** ** The cursor store *)

Section replay_store_facts.
Import ReplayStore.

Lemma read_of_load st data : load st = inr data → _read st = inr data.
Proof. unfold _read. by intros ->. Qed.

Lemma read_swallows st e :
  load st = inl e → swallowed e = true → _read st = inr ∅.
Proof. unfold _read. by intros -> ->. Qed.

Lemma read_surfaces st e :
  load st = inl e → swallowed e = false → _read st = inl e.
Proof. unfold _read. by intros -> ->. Qed.

(** A write that goes through leaves a readable JSON object behind,
    provided the file could be read before (or did not exist). *)
Lemma write_then_read data st st' :
  _write data st = (inr tt, st') →
  (∀ c w, st ≠ Present c false w) →
  _read st' = inr data.
Proof.
  intros Hw Hr. destruct st as [[]|c [] []|c r]; simplify_eq/=; try done;
    exfalso; by eapply Hr.
Qed.

Lemma set_ok_readable ch tok st st' :
  set ch tok st = (inr tt, st') → ∀ c w, st ≠ Present c false w.
Proof.
  intros Hs c w ->. unfold set, _read in Hs. simpl in Hs.
  by simplify_eq.
Qed.

Lemma set_ok_inv ch tok st st' :
  set ch tok st = (inr tt, st') →
  ∃ data, _read st = inr data ∧ _read st' = inr (<[ch := tok]> data).
Proof.
  intros Hs. pose proof (set_ok_readable _ _ _ _ Hs) as Hr.
  unfold set in Hs. destruct (_read st) as [e|data] eqn:Hrd; [by simplify_eq|].
  exists data. split; [done|]. by eapply write_then_read.
Qed.

Lemma set_then_get ch tok st st' :
  set ch tok st = (inr tt, st') → get ch st' = inr (Some tok).
Proof.
  intros Hs. destruct (set_ok_inv _ _ _ _ Hs) as (data & _ & Hr).
  unfold get. rewrite Hr. by rewrite lookup_insert_eq.
Qed.

End replay_store_facts.

(** C7, as the code has it: [get] reports a missing file and a file that
    is not valid JSON as "no cursor" ([None]); every other failure to read
    the file is raised to the caller. *)
Theorem get_read_failure (st : ReplayStore.t) (channel : string) (e : exn) :
  ReplayStore.load st = inl e →
  (ReplayStore.swallowed e = true → ReplayStore.get channel st = inr None) ∧
  (ReplayStore.swallowed e = false → ReplayStore.get channel st = inl e).
Proof.
  intros Hl. split; intros Hs; unfold ReplayStore.get.
  - by rewrite (read_swallows _ _ Hl Hs).
  - by rewrite (read_surfaces _ _ Hl Hs).
Qed.

Lemma get_read_failure_witness :
  ReplayStore.load (ReplayStore.Present (ReplayStore.JsonObject ∅) false true)
    = inl PermissionError ∧
  ReplayStore.get "/data/LeadChangeEvent"
    (ReplayStore.Present (ReplayStore.JsonObject ∅) false true)
    = inl PermissionError.
Proof.
  split; [reflexivity|].
  apply (get_read_failure _ "/data/LeadChangeEvent" PermissionError); reflexivity.
Defined.

(** C7 fails as stated: the store file holds text that is not JSON, the
    read fails with [JSONDecodeError], and [get] answers "no cursor". *)
Lemma get_swallows_corrupt_file :
  ReplayStore.load (ReplayStore.Present (ReplayStore.Garbled "{") true true)
    = inl JSONDecodeError ∧
  ReplayStore.get "/data/LeadChangeEvent"
    (ReplayStore.Present (ReplayStore.Garbled "{") true true)
    = inr None.
Proof. split; reflexivity. Qed.

(** C8: after [set(ch1, t)] returns, [get(ch1)] returns [t]; and a [set] on
    another channel leaves what [get(ch1)] returns as it was. *)
Theorem set_get_frame (st st1 : ReplayStore.t) (ch1 ch2 t t2 : string) :
  ch1 ≠ ch2 →
  ReplayStore.set ch1 t st = (inr tt, st1) →
  ReplayStore.get ch1 st1 = inr (Some t) ∧
  ∀ st2, ReplayStore.set ch2 t2 st1 = (inr tt, st2) →
         ReplayStore.get ch1 st2 = ReplayStore.get ch1 st1.
Proof.
  intros Hne Hs1.
  destruct (set_ok_inv _ _ _ _ Hs1) as (data & _ & Hr1).
  assert (ReplayStore.get ch1 st1 = inr (Some t)) as Hg1.
  { unfold ReplayStore.get. rewrite Hr1. by rewrite lookup_insert_eq. }
  split; [done|]. intros st2 Hs2.
  destruct (set_ok_inv _ _ _ _ Hs2) as (data1 & Hr1' & Hr2).
  rewrite Hg1. unfold ReplayStore.get. rewrite Hr2.
  rewrite Hr1 in Hr1'. simplify_eq.
  rewrite lookup_insert_ne by done. by rewrite lookup_insert_eq.
Qed.

Lemma set_get_frame_witness :
  "ch1" ≠ "ch2" ∧
  ReplayStore.set "ch1" "100" (ReplayStore.Missing true)
    = (inr tt, ReplayStore.Present (ReplayStore.JsonObject {["ch1" := "100"]}) true true) ∧
  ReplayStore.get "ch1"
    (ReplayStore.Present (ReplayStore.JsonObject {["ch1" := "100"]}) true true)
    = inr (Some "100").
Proof.
  split; [done|]. split; [reflexivity|].
  apply (set_get_frame (ReplayStore.Missing true) _ "ch1" "ch2" "100" "7");
    [done | reflexivity].
Defined.

(** ** The dispatcher *)

Example extract_object_name_channels :
  CDCSubscriber._extract_object_name "/data/LeadChangeEvent" = "Lead" ∧
  CDCSubscriber._extract_object_name "/data/TaskChangeEvent" = "Task" ∧
  CDCSubscriber._extract_object_name "/data/EmailMessageChangeEvent" = "EmailMessage" ∧
  CDCSubscriber._extract_object_name "/data/UnknownEvent" = "Unknown".
Proof. repeat split; reflexivity. Qed.

Section subscriber_facts.
Import CDCSubscriber.
Local Open Scope list_scope.
Local Arguments ReplayStore.set : simpl never.
Local Arguments ReplayStore.get : simpl never.

Ltac run :=
  unfold effects_of, _process_event, try_except, process_body, on_error,
    persist_replay_id, call_handler, call, store_set, inc_errors, log,
    modify, bind, ret, raise in *; simpl in *.

Ltac tidy :=
  repeat rewrite <- app_assoc in *;
  rewrite ?drop_app_length, ?drop_all, ?app_nil_r in *; simpl in *.

Lemma elem_of_cons_inv {A} (x y : A) l : x ∈ y :: l → x = y ∨ x ∈ l.
Proof. by rewrite elem_of_cons. Qed.

(** The metrics step returns and touches neither the store, nor the
    handlers, nor the journal. *)
Lemma update_metrics_run s ch ev now :
  ∃ s1, update_metrics ch ev now s = (inr tt, s1) ∧
        replay_store s1 = replay_store s ∧
        handlers s1 = handlers s ∧
        journal s1 = journal s.
Proof.
  unfold update_metrics, inc_events, set_lag, modify, bind, ret. simpl.
  repeat case_match; simplify_eq/=; eauto.
Qed.

Ltac metrics s ch ev now :=
  let s1 := fresh "s1" in
  let Hm := fresh "Hm" in
  let Hst := fresh "Hst" in
  let Hh := fresh "Hh" in
  let Hj := fresh "Hj" in
  destruct (update_metrics_run s ch ev now) as (s1 & Hm & Hst & Hh & Hj);
  run; rewrite Hm in *; simpl in *; rewrite ?Hst, ?Hh, ?Hj in *.

(** One call appends to the journal and keeps the registered handlers. *)
Lemma process_event_journal s ch ev now :
  journal (snd (_process_event ch ev now s))
    = journal s ++ effects_of ch ev now s.
Proof.
  metrics s ch ev now.
  repeat case_match; simplify_eq/=; rewrite ?Hj; tidy; done.
Qed.


(** The envelope carries a token that [set] accepts. *)
Lemma process_event_persisted s ch ev now v st :
  replay_id_of ev = Some v → truthy v = true →
  ReplayStore.set ch (str v) (replay_store s) = (inr tt, st) →
  replay_store (snd (_process_event ch ev now s)) = st ∧
  ∃ rest, effects_of ch ev now s = CursorSet ch (str v) :: rest.
Proof.
  intros Hv Ht Hs. metrics s ch ev now. rewrite Hv, Ht. simpl.
  rewrite Hst, Hs. simpl.
  repeat case_match; simplify_eq/=; rewrite ?Hj; tidy; eauto.
Qed.

(** The envelope carries a token and [set] raises. *)
Lemma process_event_not_persisted s ch ev now v e st p :
  replay_id_of ev = Some v → truthy v = true →
  ReplayStore.set ch (str v) (replay_store s) = (inl e, st) →
  HandlerCalled ch p ∉ effects_of ch ev now s.
Proof.
  intros Hv Ht Hs. metrics s ch ev now. rewrite Hv, Ht. simpl.
  rewrite Hst, Hs. simpl.
  repeat case_match; simplify_eq/=; rewrite ?Hj; tidy;
    intros Hin; repeat (apply elem_of_cons_inv in Hin as [Hin|Hin]);
    simplify_eq; by apply elem_of_nil in Hin.
Qed.

(** If the handler was invoked for an envelope with a token, [set] had
    just returned, and the store still holds the token at the end. *)
Lemma handler_called_after_set s ch ev now v p :
  replay_id_of ev = Some v →
  truthy v = true →
  HandlerCalled ch p ∈ effects_of ch ev now s →
  (∃ rest, effects_of ch ev now s
           = CursorSet ch (str v) :: HandlerCalled ch p :: rest) ∧
  ReplayStore.get ch (replay_store (snd (_process_event ch ev now s)))
    = inr (Some (str v)).
Proof.
  intros Hv Ht Hin.
  destruct (ReplayStore.set ch (str v) (replay_store s))
    as [[e|[]] st] eqn:Hs.
  { by destruct (process_event_not_persisted s ch ev now v e st p Hv Ht Hs). }
  destruct (process_event_persisted s ch ev now v st Hv Ht Hs) as [-> _].
  split; [|by eapply set_then_get].
  revert Hin. clear -Hv Ht Hs.
  metrics s ch ev now. rewrite Hv, Ht. simpl. rewrite Hst, Hs. simpl.
  repeat case_match; simplify_eq/=; rewrite ?Hj; tidy;
    intros Hin; repeat (apply elem_of_cons_inv in Hin as [Hin|Hin]);
    simplify_eq; eauto; by apply elem_of_nil in Hin.
Qed.


(** The envelope carries no token, or a falsy one: no call of [set]. *)
Lemma process_event_no_token s ch ev now :
  (replay_id_of ev = None ∨ ∃ v, replay_id_of ev = Some v ∧ truthy v = false) →
  replay_store (snd (_process_event ch ev now s)) = replay_store s ∧
  ∀ c tok, CursorSet c tok ∉ effects_of ch ev now s.
Proof.
  intros Hno.
  assert (persist_replay_id ch ev = ret tt) as Hp.
  { unfold persist_replay_id. destruct Hno as [->|(v & -> & ->)]; done. }
  metrics s ch ev now. unfold persist_replay_id in Hp. rewrite Hp. simpl.
  split.
  - repeat case_match; by simplify_eq/=.
  - intros c tok.
    repeat case_match; simplify_eq/=; rewrite ?Hj; tidy;
      intros Hin; repeat (apply elem_of_cons_inv in Hin as [Hin|Hin]);
      simplify_eq; by apply elem_of_nil in Hin.
Qed.

End subscriber_facts.

(** C3, as the code has it: when an envelope carries a token, the token
    is written to the cursor store before the handler is invoked.  If the
    handler was invoked at all, [set(channel, str(token))] had returned
    just before, and the store holds the token when [_process_event] ends,
    whatever the handler did. *)
Theorem cursor_persisted_before_handler
    (s : CDCSubscriber.t) (ch : string) (ev : CDCSubscriber.event) (now : Z)
    (v : CDCSubscriber.pyval) (p : CDCSubscriber.payload) :
  CDCSubscriber.replay_id_of ev = Some v →
  CDCSubscriber.truthy v = true →
  CDCSubscriber.HandlerCalled ch p ∈ CDCSubscriber.effects_of ch ev now s →
  (∃ rest, CDCSubscriber.effects_of ch ev now s
           = CDCSubscriber.CursorSet ch (CDCSubscriber.str v)
               :: CDCSubscriber.HandlerCalled ch p :: rest) ∧
  ReplayStore.get ch
    (CDCSubscriber.replay_store (snd (CDCSubscriber._process_event ch ev now s)))
    = inr (Some (CDCSubscriber.str v)).
Proof. apply handler_called_after_set. Qed.

Lemma cursor_persisted_before_handler_witness :
  CDCSubscriber.replay_id_of Samples.lead_create
    = Some (CDCSubscriber.PyInt 42183991) ∧
  CDCSubscriber.truthy (CDCSubscriber.PyInt 42183991) = true ∧
  ReplayStore.get Samples.lead_channel
    (CDCSubscriber.replay_store
       (snd (CDCSubscriber._process_event Samples.lead_channel
               Samples.lead_create Samples.now_ms
               (Samples.subscriber_with Samples.failing_handler))))
    = inr (Some "42183991").
Proof.
  split; [reflexivity|]. split; [reflexivity|].
  apply (cursor_persisted_before_handler
           (Samples.subscriber_with Samples.failing_handler)
           Samples.lead_channel Samples.lead_create Samples.now_ms
           (CDCSubscriber.PyInt 42183991) Samples.lead_payload);
    [reflexivity | reflexivity |].
  vm_compute. apply list_elem_of_further, list_elem_of_here.
Defined.

(** C3 fails as stated: for an envelope with replay ID 42183991 and a
    registered handler, the first thing [_process_event] does is
    [set(channel, "42183991")]; the handler is invoked after it. *)
Lemma cursor_persisted_first :
  CDCSubscriber.effects_of Samples.lead_channel Samples.lead_create
    Samples.now_ms (Samples.subscriber_with Samples.ok_handler)
  = [CDCSubscriber.CursorSet Samples.lead_channel "42183991";
     CDCSubscriber.HandlerCalled Samples.lead_channel Samples.lead_payload].
Proof. vm_compute. reflexivity. Qed.



(** C10: when the replay ID extracted from an envelope is absent or falsy
    (the empty string, zero), [_process_event] does not call [set]: the
    cursor store is the same after the call as before it. *)
Theorem falsy_replay_id_keeps_cursor
    (s : CDCSubscriber.t) (ch : string) (ev : CDCSubscriber.event) (now : Z) :
  (CDCSubscriber.replay_id_of ev = None ∨
   ∃ v, CDCSubscriber.replay_id_of ev = Some v ∧ CDCSubscriber.truthy v = false) →
  CDCSubscriber.replay_store (snd (CDCSubscriber._process_event ch ev now s))
    = CDCSubscriber.replay_store s ∧
  ∀ c tok, CDCSubscriber.CursorSet c tok ∉ CDCSubscriber.effects_of ch ev now s.
Proof. apply process_event_no_token. Qed.

Lemma falsy_replay_id_keeps_cursor_witness :
  (CDCSubscriber.replay_id_of Samples.lead_polled = None ∨
   ∃ v, CDCSubscriber.replay_id_of Samples.lead_polled = Some v ∧
        CDCSubscriber.truthy v = false) ∧
  CDCSubscriber.replay_store
    (snd (CDCSubscriber._process_event Samples.lead_channel Samples.lead_polled
            Samples.now_ms (Samples.subscriber_with Samples.ok_handler)))
  = CDCSubscriber.replay_store (Samples.subscriber_with Samples.ok_handler).
Proof.
  assert (CDCSubscriber.replay_id_of Samples.lead_polled = None ∨
          ∃ v, CDCSubscriber.replay_id_of Samples.lead_polled = Some v ∧
               CDCSubscriber.truthy v = false) as Hfalsy.
  { right. exists (CDCSubscriber.PyStr ""). split; reflexivity. }
  split; [exact Hfalsy|].
  exact (proj1 (falsy_replay_id_keeps_cursor _ Samples.lead_channel _
                  Samples.now_ms Hfalsy)).
Defined.

(** ** The first-touch detector *)

Example parse_dt_utility :
  FirstTouch.parse_dt None = None ∧
  FirstTouch.parse_dt (Some (FirstTouch.Unparseable "")) = None ∧
  FirstTouch.parse_dt (Some (FirstTouch.Unparseable "invalid")) = None ∧
  FirstTouch.parse_dt (Some (FirstTouch.iso (Samples.on_day 10 30 45)))
    = Some (Samples.on_day 10 30 45).
Proof. repeat split; reflexivity. Qed.

(** A lead without [CreatedDate] never gets a response recorded. *)
Example undated_lead_stays_unanswered :
  FirstTouch.detect_first_touch (Samples.store_of Samples.undated_lead)
    Samples.lead_id (Samples.on_day 10 30 0) "U1" "Task"
  = (FirstTouch.Error "Missing CreatedDate", Samples.store_of Samples.undated_lead).
Proof. reflexivity. Qed.

(** [iso] prints the wall-clock fields: 15:00:00 at +05:30 is written as
    15:00:00 with a [Z], which reads back five and a half hours after the
    instant of the datetime. *)
Example iso_ignores_offset :
  FirstTouch.instant Samples.offset_candidate_dt = Some (Samples.on_day 9 30 0) ∧
  FirstTouch.parse_dt (Some (FirstTouch.iso Samples.offset_candidate_dt))
    = Some (Samples.on_day 15 0 0).
Proof. split; reflexivity. Qed.

(** *** Floating point *)

Section float_facts.
Import FirstTouch.

(** One second, as [total_seconds] returns it, and one microsecond, which
    is not a binary fraction and is rounded. *)
Example total_seconds_one_second :
  total_seconds second = Double 4503599627370496 (-52).
Proof. vm_compute. reflexivity. Qed.

Example total_seconds_microsecond :
  total_seconds 1 = Double 4722366482869645 (-72).
Proof. vm_compute. reflexivity. Qed.

(** The quotients agree with the division of binary64 as the Standard
    Library specifies it: for 1234567 microseconds, for 90 seconds before,
    and for one microsecond short of 328739640 minutes. *)
Example quotients_are_binary64 :
  spec_of (total_seconds 1234567)
    = binary64_div (S754_finite false 1234567 0) (S754_finite false 1000000 0) ∧
  spec_of (div_by (total_seconds 1234567) 60)
    = binary64_div (spec_of (total_seconds 1234567)) (S754_finite false 60 0) ∧
  spec_of (total_seconds (- 90 * second))
    = binary64_div (S754_finite true 90000000 0) (S754_finite false 1000000 0) ∧
  spec_of (div_by (total_seconds (- 90 * second)) 60)
    = binary64_div (spec_of (total_seconds (- 90 * second)))
        (S754_finite false 60 0) ∧
  spec_of (total_seconds (328739640 * minute - 1))
    = binary64_div (S754_finite false 19724378399999999 0)
        (S754_finite false 1000000 0) ∧
  spec_of (div_by (total_seconds (328739640 * minute - 1)) 60)
    = binary64_div (spec_of (total_seconds (328739640 * minute - 1)))
        (S754_finite false 60 0).
Proof. repeat split; vm_compute; reflexivity. Qed.

(** Where the division in floating point and the exact quotient part:
    one microsecond short of 328739640 minutes, [total_seconds] rounds up
    to the whole minute. *)
Example minutes_rounded_up :
  ttfr_minutes_of (328739640 * minute - 1) 0 = 328739640 ∧
  (328739640 * minute - 1 - 0) ÷ minute = 328739639.
Proof. split; vm_compute; reflexivity. Qed.

Lemma round_half_even_exact num den :
  0 < den → num mod den = 0 → round_half_even num den = num / den.
Proof.
  intros Hden Hr. unfold round_half_even. cbv zeta. rewrite Hr.
  by rewrite (proj2 (Z.ltb_lt (2 * 0) den)) by lia.
Qed.

Lemma round_half_even_bounds num den :
  0 < den →
  num / den ≤ round_half_even num den ≤ num / den + 1.
Proof. intros Hden. unfold round_half_even. repeat case_match; lia. Qed.

(** The exponent [nearest_pos] picks is at most [b - 52] when the
    quotient is below [2 ^ b]. *)
Lemma nearest_pos_expo a q b :
  0 < a → 0 < q → a < 2 ^ b * q → 0 ≤ b →
  expo (nearest_pos a q) ≤ b - 52.
Proof.
  intros Ha Hq Hlt Hb. unfold nearest_pos. simpl.
  assert (Z.log2 a - Z.log2 q ≤ b).
  { pose proof (Z.log2_spec q Hq) as [_ Hq2].
    assert (a < 2 ^ (b + Z.succ (Z.log2 q))) as Ha2.
    { rewrite Z.pow_add_r by (pose proof (Z.log2_nonneg q); lia).
      assert (0 < 2 ^ b) by (apply Z.pow_pos_nonneg; lia). nia. }
    apply Z.log2_lt_pow2 in Ha2; lia. }
  case_match; lia.
Qed.

Lemma nearest_pos_mant a q :
  mant (nearest_pos a q)
  = round_half_even (a * 2 ^ Z.max (- expo (nearest_pos a q)) 0)
      (q * 2 ^ Z.max (expo (nearest_pos a q)) 0).
Proof. done. Qed.

(** A whole number of seconds comes out of [total_seconds] exactly. *)
Lemma total_seconds_whole s :
  0 < s < 2 ^ 39 →
  ∃ E, 0 ≤ E ∧ total_seconds (s * 1000000) = Double (s * 2 ^ E) (- E).
Proof.
  intros Hs. unfold total_seconds, nearest_double.
  rewrite (proj2 (Z.eqb_neq _ 0)) by lia.
  rewrite (proj2 (Z.ltb_lt 0 _)) by lia.
  assert (expo (nearest_pos (s * 1000000) 1000000) ≤ -12) as Hneg.
  { apply (nearest_pos_expo (s * 1000000) 1000000 40); lia. }
  pose proof (nearest_pos_mant (s * 1000000) 1000000) as Hm.
  destruct (nearest_pos (s * 1000000) 1000000) as [m e]. simpl in *.
  exists (- e). split; [lia|]. rewrite Z.opp_involutive. f_equal.
  rewrite Hm.
  rewrite (Z.max_l (- e) 0), (Z.max_r e 0) by lia.
  change (2 ^ 0) with 1. rewrite Z.mul_1_r.
  assert (0 < 2 ^ (- e)) by (apply Z.pow_pos_nonneg; lia).
  replace (s * 1000000 * 2 ^ (- e)) with (s * 2 ^ (- e) * 1000000) by lia.
  rewrite round_half_even_exact; [|lia|by rewrite Z.mod_mul].
  by rewrite Z.div_mul.
Qed.

(** Dividing a whole number of seconds by 60 and truncating is exact. *)
Lemma minutes_whole s E :
  0 < s < 2 ^ 39 → 0 ≤ E →
  int_of (div_by (Double (s * 2 ^ E) (- E)) 60) = s / 60.
Proof.
  intros Hs HE. unfold div_by, nearest_double. simpl.
  rewrite Z.opp_involutive.
  rewrite (Z.max_r (- E) 0), (Z.max_l E 0) by lia.
  change (2 ^ 0) with 1. rewrite Z.mul_1_r.
  assert (0 < 2 ^ E) as HP by (apply Z.pow_pos_nonneg; lia).
  set (P := 2 ^ E) in *.
  rewrite (proj2 (Z.eqb_neq _ 0)) by nia.
  rewrite (proj2 (Z.ltb_lt 0 _)) by nia.
  assert (expo (nearest_pos (s * P) (60 * P)) ≤ -18) as He.
  { apply (nearest_pos_expo (s * P) (60 * P) 34); nia. }
  pose proof (nearest_pos_mant (s * P) (60 * P)) as Hm.
  destruct (nearest_pos (s * P) (60 * P)) as [m e]. simpl in *.
  unfold int_of. simpl.
  rewrite (Z.max_r e 0), (Z.max_l (- e) 0) by lia.
  change (2 ^ 0) with 1. rewrite Z.mul_1_r.
  rewrite Hm.
  rewrite (Z.max_l (- e) 0), (Z.max_r e 0) by lia.
  change (2 ^ 0) with 1. rewrite Z.mul_1_r.
  assert (64 ≤ 2 ^ (- e)) as HQ.
  { change 64 with (2 ^ 6). apply Z.pow_le_mono_r; lia. }
  set (Q := 2 ^ (- e)) in *.
  pose proof (round_half_even_bounds (s * P * Q) (60 * P)) as Hb.
  set (r := round_half_even (s * P * Q) (60 * P)) in *.
  assert (s * P * Q / (60 * P) = s * Q / 60) as Hdiv.
  { replace (s * P * Q) with (s * Q * P) by lia.
    rewrite Z.div_mul_cancel_r; lia. }
  rewrite Hdiv in Hb.
  pose proof (Z.div_mod s 60) as Hs60. pose proof (Z.mod_pos_bound s 60).
  assert (0 ≤ s / 60) by (apply Z.div_pos; lia).
  set (k := s / 60) in *.
  assert (k * Q ≤ s * Q / 60) by (apply Z.div_le_lower_bound; nia).
  assert (s * Q / 60 + 1 < (k + 1) * Q).
  { assert (s * Q / 60 < (k + 1) * Q - 1); [|lia].
    apply Z.div_lt_upper_bound; nia. }
  assert (0 ≤ r) by nia.
  rewrite Z.quot_div_nonneg by lia.
  symmetry. apply (Z.div_unique r Q k (r - k * Q)); nia.
Qed.

(** The computation is odd: the minutes of [- us] are the minutes of
    [us] with the sign changed. *)
Lemma minutes_opp us :
  int_of (div_by (total_seconds (- us)) 60)
  = - int_of (div_by (total_seconds us) 60).
Proof.
  assert (∀ n d, nearest_double (- n) d
                 = Double (- mant (nearest_double n d))
                     (expo (nearest_double n d))) as Hodd.
  { intros n d. unfold nearest_double.
    destruct (Z.lt_trichotomy n 0) as [Hn|[->|Hn]].
    - rewrite (proj2 (Z.eqb_neq (- n) 0)), (proj2 (Z.ltb_lt 0 (- n))) by lia.
      rewrite (proj2 (Z.eqb_neq n 0)), (proj2 (Z.ltb_ge 0 n)) by lia.
      cbv zeta. generalize (nearest_pos (- n) d). intros [m e]. simpl.
      by rewrite Z.opp_involutive.
    - done.
    - rewrite (proj2 (Z.eqb_neq (- n) 0)), (proj2 (Z.ltb_ge 0 (- n))) by lia.
      rewrite (proj2 (Z.eqb_neq n 0)), (proj2 (Z.ltb_lt 0 n)) by lia.
      cbv zeta. by rewrite Z.opp_involutive. }
  unfold total_seconds. rewrite Hodd.
  destruct (nearest_double us 1000000) as [m e]. unfold div_by. simpl.
  rewrite Z.mul_opp_l, Hodd.
  destruct (nearest_double (m * 2 ^ Z.max e 0) (60 * 2 ^ Z.max (- e) 0))
    as [m' e'].
  unfold int_of. simpl. rewrite Z.mul_opp_l.
  apply Z.quot_opp_l.
  assert (0 < 2 ^ Z.max (- e') 0) by (apply Z.pow_pos_nonneg; lia). lia.
Qed.

(** For a whole number of seconds, [int(total_seconds() / 60)] is the
    number of seconds over 60, truncated toward zero. *)
Lemma minutes_of_seconds s :
  - 2 ^ 39 < s < 2 ^ 39 →
  int_of (div_by (total_seconds (s * 1000000)) 60) = s ÷ 60.
Proof.
  intros Hs.
  assert (∀ s, 0 < s < 2 ^ 39 →
               int_of (div_by (total_seconds (s * 1000000)) 60) = s ÷ 60)
    as Hpos.
  { intros s' Hs'. destruct (total_seconds_whole s' Hs') as (E & HE & ->).
    rewrite minutes_whole by done. by rewrite Z.quot_div_nonneg by lia. }
  destruct (Z.lt_trichotomy s 0) as [Hn|[->|Hn]].
  - replace (s * 1000000) with (- ((- s) * 1000000)) by lia.
    rewrite minutes_opp, Hpos by lia.
    rewrite Z.quot_opp_l by lia. lia.
  - done.
  - apply Hpos. lia.
Qed.

(** The same between two datetimes that are whole seconds. *)
Lemma ttfr_minutes_whole_seconds t created_dt :
  whole_second t → whole_second created_dt →
  - 2 ^ 39 * second < t - created_dt < 2 ^ 39 * second →
  ttfr_minutes_of t created_dt = (t - created_dt) ÷ minute.
Proof.
  unfold whole_second, ttfr_minutes_of, minute, second.
  intros Ht Hc Hrange.
  assert ((t - created_dt) mod 1000000 = 0) as Hmod.
  { rewrite Zminus_mod, Ht, Hc. done. }
  pose proof (Z.div_mod (t - created_dt) 1000000) as Hdm.
  rewrite Hmod in Hdm.
  set (s := (t - created_dt) / 1000000) in *.
  replace (t - created_dt) with (s * 1000000) by lia.
  rewrite minutes_of_seconds by lia.
  by rewrite Z.quot_mul_cancel_r by lia.
Qed.

End float_facts.

Section first_touch_facts.
Import FirstTouch.

Lemma get_record_lead sf lead_id l :
  get_record sf "Lead" lead_id = inr l ↔ leads sf !! lead_id = Some l.
Proof.
  unfold get_record. rewrite bool_decide_eq_true_2 by done.
  destruct (leads sf !! lead_id); naive_solver.
Qed.

Lemma instant_utc (dt : datetime) : instant (utc dt) = Some dt.
Proof. unfold instant. simpl. f_equal. lia. Qed.

Lemma instant_in_utc dt : in_utc dt → instant dt = Some (wall dt).
Proof. unfold in_utc, instant. intros ->. f_equal. lia. Qed.

Lemma moment_in_utc c : in_utc (responded_at c) → moment c = wall (responded_at c).
Proof. unfold in_utc, moment. intros ->. simpl. lia. Qed.

(** The ways a call on an existing lead can go, for an aware candidate
    at the instant [t]. *)
Lemma detect_skip sf lead_id l existing candidate_dt t user_id src :
  leads sf !! lead_id = Some l →
  parse_dt (First_Response_At__c l) = Some existing →
  instant candidate_dt = Some t →
  existing ≤ t →
  detect_first_touch sf lead_id candidate_dt user_id src
    = (Skipped "existing_earlier" existing candidate_dt, sf).
Proof.
  intros Hl He Ht Hle. apply get_record_lead in Hl.
  unfold detect_first_touch, le_dt. rewrite Hl, He, Ht.
  by rewrite (proj2 (Z.leb_le _ _) Hle).
Qed.

Lemma detect_missing_created sf lead_id l candidate_dt user_id src :
  leads sf !! lead_id = Some l →
  (∀ existing, parse_dt (First_Response_At__c l) = Some existing →
               ∃ t, instant candidate_dt = Some t ∧ t < existing) →
  parse_dt (CreatedDate l) = None →
  detect_first_touch sf lead_id candidate_dt user_id src
    = (Error "Missing CreatedDate", sf).
Proof.
  intros Hl Hlt Hc. apply get_record_lead in Hl.
  unfold detect_first_touch, le_dt. rewrite Hl, Hc.
  destruct (parse_dt (First_Response_At__c l)) as [existing|]; [|done].
  destruct (Hlt existing eq_refl) as (t & -> & Hlt').
  by rewrite (proj2 (Z.leb_gt _ _) Hlt').
Qed.

Lemma detect_update sf lead_id l created_dt candidate_dt t user_id src :
  leads sf !! lead_id = Some l →
  (∀ existing, parse_dt (First_Response_At__c l) = Some existing →
               t < existing) →
  instant candidate_dt = Some t →
  parse_dt (CreatedDate l) = Some created_dt →
  update_error sf = None →
  let data := Update (iso candidate_dt) user_id src
                (ttfr_minutes_of t created_dt) in
  detect_first_touch sf lead_id candidate_dt user_id src
    = (Updated lead_id candidate_dt user_id src
         (ttfr_minutes_of t created_dt) (total_seconds (t - created_dt))
         (bool_decide (is_Some (parse_dt (First_Response_At__c l)))),
       Client (<[lead_id := patch data l]> (leads sf)) (answers sf)
         (update_calls sf ++ [("Lead", lead_id, data)]) None).
Proof.
  intros Hl Hlt Ht Hc Hu data. pose proof Hl as Hg. apply get_record_lead in Hg.
  unfold detect_first_touch, update_record, le_dt, sub_dt.
  rewrite Hg, Hc, Ht, bool_decide_eq_true_2, Hl, Hu by done.
  destruct (parse_dt (First_Response_At__c l)) as [existing|]; [|done].
  specialize (Hlt existing eq_refl).
  by rewrite (proj2 (Z.leb_gt _ _) Hlt).
Qed.

(** An update that the service refuses is reported as an error, and
    nothing is written. *)
Lemma detect_refused sf lead_id l created_dt candidate_dt t user_id src e :
  leads sf !! lead_id = Some l →
  (∀ existing, parse_dt (First_Response_At__c l) = Some existing →
               t < existing) →
  instant candidate_dt = Some t →
  parse_dt (CreatedDate l) = Some created_dt →
  update_error sf = Some e →
  detect_first_touch sf lead_id candidate_dt user_id src
    = (Error (str_exn e), sf).
Proof.
  intros Hl Hlt Ht Hc Hu. pose proof Hl as Hg. apply get_record_lead in Hg.
  unfold detect_first_touch, update_record, le_dt, sub_dt.
  rewrite Hg, Hc, Ht, bool_decide_eq_true_2, Hl, Hu by done.
  destruct (parse_dt (First_Response_At__c l)) as [existing|]; [|done].
  specialize (Hlt existing eq_refl).
  by rewrite (proj2 (Z.leb_gt _ _) Hlt).
Qed.

Lemma iso_whole_second dt : whole_second (wall dt) → iso dt = IsoText (wall dt).
Proof. unfold whole_second, iso. intros ->. f_equal. lia. Qed.

(** One delivery keeps the lead's record in step with the earliest
    timestamp seen so far. *)
Lemma deliver_recorded lead_id created_dt sf o c :
  in_utc (responded_at c) →
  whole_second (wall (responded_at c)) →
  recorded sf lead_id created_dt o →
  recorded (deliver lead_id sf c) lead_id created_dt (earlier o (moment c)).
Proof.
  intros Hutc Hw (Hu & l & Hl & Hc & Ho). unfold deliver.
  rewrite (moment_in_utc c Hutc).
  pose proof (instant_in_utc _ Hutc) as Ht.
  destruct o as [m|]; simpl.
  - destruct Ho as [Hat Httfr].
    destruct (decide (m ≤ wall (responded_at c))) as [Hle|Hgt].
    + rewrite (detect_skip sf lead_id l m _ (wall (responded_at c)))
        by (rewrite ?Hat; done).
      simpl. split; [done|]. exists l. rewrite Z.min_l by done. done.
    + rewrite (detect_update sf lead_id l created_dt _ (wall (responded_at c)));
        [|done| |done..].
      2:{ intros existing. rewrite Hat. simpl. intros [= <-]. lia. }
      unfold recorded. simpl. split; [done|].
      eexists. rewrite lookup_insert_eq. split; [done|].
      simpl. rewrite Z.min_r by lia. by rewrite iso_whole_second.
  - rewrite (detect_update sf lead_id l created_dt _ (wall (responded_at c)));
      [|done| |done..].
    2:{ intros existing. by rewrite Ho. }
    unfold recorded. simpl. split; [done|].
    eexists. rewrite lookup_insert_eq. split; [done|].
    simpl. by rewrite iso_whole_second.
Qed.

Lemma deliver_all_recorded lead_id created_dt cs sf o :
  (∀ c, c ∈ cs → in_utc (responded_at c) ∧ whole_second (wall (responded_at c))) →
  recorded sf lead_id created_dt o →
  recorded (deliver_all lead_id cs sf) lead_id created_dt
    (foldl earlier o (moment <$> cs)).
Proof.
  revert sf o. induction cs as [|c cs IH]; intros sf o Hw Hr; [done|].
  simpl. apply IH.
  - intros c' Hin. apply Hw. by apply list_elem_of_further.
  - destruct (Hw c (list_elem_of_here _ _)). by apply deliver_recorded.
Qed.

Lemma earlier_assoc o a b : earlier (earlier o a) b = earlier o (Z.min a b).
Proof. destruct o; simpl; f_equal; lia. Qed.

Lemma foldl_earlier cs o :
  foldl earlier o (moment <$> cs)
  = match earliest cs with
    | None => o
    | Some m => earlier o m
    end.
Proof.
  revert o. induction cs as [|c cs IH]; intros o; [done|].
  simpl. rewrite IH. destruct (earliest cs); [|done].
  apply earlier_assoc.
Qed.

Lemma earliest_nil cs : earliest cs = None → cs = [].
Proof. destruct cs as [|c cs]; [done|]. simpl. by destruct (earliest cs). Qed.

(** [earliest] is a lower bound, and it is attained. *)
Lemma earliest_lower_bound cs m :
  earliest cs = Some m →
  (∃ c, c ∈ cs ∧ moment c = m) ∧ ∀ c, c ∈ cs → m ≤ moment c.
Proof.
  revert m. induction cs as [|c cs IH]; intros m; [done|].
  simpl. destruct (earliest cs) as [m'|] eqn:He.
  - intros [= <-]. destruct (IH m' eq_refl) as [(c' & Hin & Hc') Hlb]. split.
    + destruct (decide (moment c ≤ m')).
      * exists c. split; [apply list_elem_of_here | lia].
      * exists c'. split; [by apply list_elem_of_further | lia].
    + intros c0 [->|Hin0]%elem_of_cons; [lia|].
      specialize (Hlb c0 Hin0). lia.
  - intros [= <-]. apply earliest_nil in He as ->. split.
    + exists c. split; [apply list_elem_of_here | done].
    + intros c0 [->|Hin0]%elem_of_cons; [lia|]. by apply elem_of_nil in Hin0.
Qed.

(** It depends on the set of candidates only. *)
Lemma earliest_same_elements cs1 cs2 m :
  (∀ c, c ∈ cs1 ↔ c ∈ cs2) →
  earliest cs1 = Some m → earliest cs2 = Some m.
Proof.
  intros Hsame H1.
  destruct (earliest_lower_bound _ _ H1) as [(c1 & Hin1 & Hc1) Hlb1].
  destruct (earliest cs2) as [m2|] eqn:H2.
  - destruct (earliest_lower_bound _ _ H2) as [(c2 & Hin2 & Hc2) Hlb2].
    f_equal.
    pose proof (Hlb1 c2 (proj2 (Hsame c2) Hin2)).
    pose proof (Hlb2 c1 (proj1 (Hsame c1) Hin1)). lia.
  - apply earliest_nil in H2 as ->. apply Hsame in Hin1.
    by apply elem_of_nil in Hin1.
Qed.

(** Delivering any sequence to a lead with no response leaves the
    earliest timestamp recorded. *)
Lemma deliver_all_earliest sf lead_id l created_dt cs m :
  leads sf !! lead_id = Some l →
  First_Response_At__c l = None →
  parse_dt (CreatedDate l) = Some created_dt →
  update_error sf = None →
  (∀ c, c ∈ cs → in_utc (responded_at c) ∧ whole_second (wall (responded_at c))) →
  earliest cs = Some m →
  first_response_at (deliver_all lead_id cs sf) lead_id = Some m ∧
  time_to_first_response_minutes (deliver_all lead_id cs sf) lead_id
    = Some (ttfr_minutes_of m created_dt).
Proof.
  intros Hl Hat Hc Hu Hw He.
  assert (recorded sf lead_id created_dt None) as Hr.
  { split; [done|]. by exists l. }
  pose proof (deliver_all_recorded lead_id created_dt cs sf None Hw Hr) as Hfin.
  rewrite foldl_earlier, He in Hfin. simpl in Hfin.
  destruct Hfin as (_ & l' & Hl' & _ & Hat' & Httfr').
  unfold first_response_at, time_to_first_response_minutes.
  rewrite Hl', Hat', Httfr'. done.
Qed.

(** The earliest of whole seconds is a whole second. *)
Lemma earliest_whole_second cs m :
  (∀ c, c ∈ cs → in_utc (responded_at c) ∧ whole_second (wall (responded_at c))) →
  earliest cs = Some m → whole_second m.
Proof.
  intros Hw He. destruct (earliest_lower_bound _ _ He) as [(c & Hin & <-) _].
  destruct (Hw c Hin) as [Hutc Hws]. by rewrite moment_in_utc.
Qed.

(** For an aware candidate that is not earlier than the recorded
    response, the call returns [Skipped] with reason [existing_earlier]
    and leaves the record store, its log of updates included, as it was. *)
Lemma existing_earlier_skips
    (sf : sf_client) (lead_id : string) (l : lead)
    (existing t : datetime) (candidate_dt : pydatetime) (user_id src : string) :
  get_record sf "Lead" lead_id = inr l →
  parse_dt (First_Response_At__c l) = Some existing →
  instant candidate_dt = Some t →
  existing ≤ t →
  detect_first_touch sf lead_id candidate_dt user_id src
    = (Skipped "existing_earlier" existing candidate_dt, sf).
Proof.
  intros Hg He Ht Hle. apply get_record_lead in Hg. by eapply detect_skip.
Qed.

End first_touch_facts.

(** C2 does not hold of the code for the candidates the repository's own
    tests pass.  This is [test_first_touch_candidate_later]: the lead has
    a first response at 10:30:00, written by [iso], and the candidate is
    the naive [datetime(2025, 11, 1, 10, 45, 0)].  The test expects
    [skipped]; the comparison with the stored response raises [TypeError],
    which no [try] catches, and the call does not return. *)
Theorem naive_candidate_not_skipped :
  FirstTouch.get_record Samples.test_store "Lead" Samples.test_lead_id
    = inr Samples.test_lead ∧
  FirstTouch.parse_dt (FirstTouch.First_Response_At__c Samples.test_lead)
    = Some (FirstTouch.wall (Samples.on_nov_1 10 30 0)) ∧
  FirstTouch.wall (Samples.on_nov_1 10 30 0)
    ≤ FirstTouch.wall (Samples.on_nov_1 10 45 0) ∧
  FirstTouch.detect_first_touch Samples.test_store Samples.test_lead_id
    (Samples.on_nov_1 10 45 0) "0055e000000User1" "Task"
  = (FirstTouch.Raised FirstTouch.compare_TypeError, Samples.test_store).
Proof. split; [reflexivity|]. split; [reflexivity|]. split; [|reflexivity]. by vm_compute. Qed.

(** The same defect at the subtraction of the creation date:
    [test_first_touch_no_existing] expects [updated] with 30 minutes. *)
Example naive_candidate_not_recorded :
  FirstTouch.detect_first_touch
    (FirstTouch.Client
       {[Samples.test_lead_id :=
           FirstTouch.Lead Samples.test_lead_id
             (Some (FirstTouch.iso (Samples.on_nov_1 10 0 0))) None None None None]}
       (λ _, inr []) [] None)
    Samples.test_lead_id (Samples.on_nov_1 10 30 0) "0055e000000User1" "Task"
  = (FirstTouch.Raised FirstTouch.subtract_TypeError,
     FirstTouch.Client
       {[Samples.test_lead_id :=
           FirstTouch.Lead Samples.test_lead_id
             (Some (FirstTouch.iso (Samples.on_nov_1 10 0 0))) None None None None]}
       (λ _, inr []) [] None).
Proof. reflexivity. Qed.

(** C5, as the code has it, for an aware candidate at the instant [t]
    whose update goes through: the minutes written are
    [int(total_seconds() / 60)] of [t - created], computed in floating
    point.  Between whole seconds less than [2 ^ 39] seconds apart (more
    than the range of [datetime]) that is the seconds over 60 truncated
    toward zero; it is the floor, and not negative, when the candidate is
    not before the creation.  When [CreatedDate] is missing or does not
    parse, the call returns the error [Missing CreatedDate] and writes
    nothing. *)
Theorem ttfr_minutes_truncated
    (sf : FirstTouch.sf_client) (lead_id : string) (l : FirstTouch.lead)
    (candidate_dt : FirstTouch.pydatetime) (t : FirstTouch.datetime)
    (user_id src : string) :
  FirstTouch.get_record sf "Lead" lead_id = inr l →
  FirstTouch.instant candidate_dt = Some t →
  (∀ existing,
     FirstTouch.parse_dt (FirstTouch.First_Response_At__c l) = Some existing →
     t < existing) →
  (∀ created_dt,
     FirstTouch.parse_dt (FirstTouch.CreatedDate l) = Some created_dt →
     FirstTouch.update_error sf = None →
     let sf' := snd (FirstTouch.detect_first_touch sf lead_id candidate_dt user_id src) in
     let ttfr :=
       FirstTouch.int_of
         (FirstTouch.div_by (FirstTouch.total_seconds (t - created_dt)) 60) in
     FirstTouch.time_to_first_response_minutes sf' lead_id = Some ttfr ∧
     (FirstTouch.whole_second t → FirstTouch.whole_second created_dt →
      - 2 ^ 39 * FirstTouch.second < t - created_dt < 2 ^ 39 * FirstTouch.second →
      ttfr = (t - created_dt) ÷ FirstTouch.minute ∧
      (created_dt ≤ t →
       ttfr = (t - created_dt) `div` FirstTouch.minute ∧ 0 ≤ ttfr))) ∧
  (FirstTouch.parse_dt (FirstTouch.CreatedDate l) = None →
   FirstTouch.detect_first_touch sf lead_id candidate_dt user_id src
     = (FirstTouch.Error "Missing CreatedDate", sf)).
Proof.
  intros Hg Ht Hlt. apply get_record_lead in Hg. split.
  - intros created_dt Hc Hu.
    rewrite (detect_update sf lead_id l created_dt _ t user_id src Hg Hlt Ht Hc Hu).
    simpl. split.
    + unfold FirstTouch.time_to_first_response_minutes. simpl.
      by rewrite lookup_insert_eq.
    + intros Hwt Hwc Hrange.
      pose proof (ttfr_minutes_whole_seconds t created_dt Hwt Hwc Hrange) as Hq.
      unfold FirstTouch.ttfr_minutes_of in Hq. rewrite Hq.
      split; [done|]. intros Hle.
      rewrite Z.quot_div_nonneg
        by (unfold FirstTouch.minute, FirstTouch.second; lia).
      split; [done|].
      apply Z.div_pos; unfold FirstTouch.minute, FirstTouch.second; lia.
  - intros Hc. eapply detect_missing_created; [done| |done].
    intros existing He. exists t. split; [done|]. by apply Hlt.
Qed.

Lemma ttfr_minutes_truncated_witness :
  FirstTouch.get_record (Samples.store_of Samples.new_lead) "Lead"
    Samples.lead_id = inr Samples.new_lead ∧
  FirstTouch.instant (Samples.on_day 10 30 59) = Some (Samples.on_day 10 30 59) ∧
  FirstTouch.time_to_first_response_minutes
    (snd (FirstTouch.detect_first_touch (Samples.store_of Samples.new_lead)
            Samples.lead_id (Samples.on_day 10 30 59) "U1" "Task"))
    Samples.lead_id
  = Some (FirstTouch.int_of
            (FirstTouch.div_by
               (FirstTouch.total_seconds
                  (Samples.on_day 10 30 59 - Samples.on_day 10 0 0)) 60)) ∧
  FirstTouch.int_of
    (FirstTouch.div_by
       (FirstTouch.total_seconds
          (Samples.on_day 10 30 59 - Samples.on_day 10 0 0)) 60) = 30.
Proof.
  split; [reflexivity|]. split; [reflexivity|].
  split; [|vm_compute; reflexivity].
  refine (proj1 (proj1 (ttfr_minutes_truncated (Samples.store_of Samples.new_lead)
                   Samples.lead_id Samples.new_lead (Samples.on_day 10 30 59)
                   (Samples.on_day 10 30 59)
                   "U1" "Task" eq_refl eq_refl _)
                   (Samples.on_day 10 0 0) eq_refl eq_refl)).
  intros existing Hex. simpl in Hex. discriminate Hex.
Defined.

(** C5 fails as stated: for a candidate 90 seconds before the creation of
    the lead, the update writes -1 minute; the floor of -90/60 is -2, and
    the value is negative. *)
Lemma ttfr_minutes_negative :
  FirstTouch.time_to_first_response_minutes
    (snd (FirstTouch.detect_first_touch (Samples.store_of Samples.new_lead)
            Samples.lead_id (Samples.on_day 9 58 30) "U1" "Task"))
    Samples.lead_id = Some (-1) ∧
  (Samples.on_day 9 58 30 - Samples.on_day 10 0 0) `div` FirstTouch.minute = -2 ∧
  ¬ (0 ≤ -1).
Proof.
  split; [vm_compute; reflexivity|]. split; [reflexivity|]. lia.
Qed.

(** C9, as the code has it: text in [First_Response_At__c] that does not
    parse is read as "no response recorded".  When [CreatedDate] parses,
    the candidate is aware and the update goes through, the call
    overwrites the four response fields, with the text [iso] writes for
    the candidate, and reports [Updated] with [replaced_existing] false;
    when [CreatedDate] does not parse either, the call returns the error
    [Missing CreatedDate] and writes nothing. *)
Theorem malformed_response_read_as_absent
    (sf : FirstTouch.sf_client) (lead_id : string) (l : FirstTouch.lead)
    (txt : FirstTouch.dt_text)
    (candidate_dt : FirstTouch.pydatetime) (user_id src : string) :
  FirstTouch.get_record sf "Lead" lead_id = inr l →
  FirstTouch.First_Response_At__c l = Some txt →
  FirstTouch.parse_dt (Some txt) = None →
  (∀ created_dt t,
     FirstTouch.parse_dt (FirstTouch.CreatedDate l) = Some created_dt →
     FirstTouch.instant candidate_dt = Some t →
     FirstTouch.update_error sf = None →
     let r := FirstTouch.detect_first_touch sf lead_id candidate_dt user_id src in
     fst r = FirstTouch.Updated lead_id candidate_dt user_id src
               (FirstTouch.ttfr_minutes_of t created_dt)
               (FirstTouch.total_seconds (t - created_dt)) false ∧
     FirstTouch.leads (snd r) !! lead_id
       = Some (FirstTouch.Lead (FirstTouch.Id l) (FirstTouch.CreatedDate l)
                 (Some (FirstTouch.iso candidate_dt)) (Some user_id) (Some src)
                 (Some (FirstTouch.ttfr_minutes_of t created_dt))) ∧
     FirstTouch.first_response_at (snd r) lead_id
       = Some (FirstTouch.wall candidate_dt
               - FirstTouch.wall candidate_dt `mod` FirstTouch.second)) ∧
  (FirstTouch.parse_dt (FirstTouch.CreatedDate l) = None →
   FirstTouch.detect_first_touch sf lead_id candidate_dt user_id src
     = (FirstTouch.Error "Missing CreatedDate", sf)).
Proof.
  intros Hg Htxt Hp. apply get_record_lead in Hg.
  split.
  - intros created_dt t Hc Ht Hu.
    assert (∀ existing,
              FirstTouch.parse_dt (FirstTouch.First_Response_At__c l) = Some existing →
              t < existing) as Hlt.
    { intros existing. rewrite Htxt, Hp. discriminate. }
    rewrite (detect_update sf lead_id l created_dt _ t user_id src Hg Hlt Ht Hc Hu).
    simpl. rewrite Htxt, Hp. split; [done|].
    unfold FirstTouch.first_response_at. simpl.
    by rewrite lookup_insert_eq.
  - intros Hc. eapply detect_missing_created; [done| |done].
    intros existing. rewrite Htxt, Hp. discriminate.
Qed.

Lemma malformed_response_read_as_absent_witness :
  FirstTouch.get_record (Samples.store_of Samples.corrupt_lead) "Lead"
    Samples.lead_id = inr Samples.corrupt_lead ∧
  FirstTouch.First_Response_At__c Samples.corrupt_lead
    = Some (FirstTouch.Unparseable "yesterday-ish") ∧
  FirstTouch.parse_dt (Some (FirstTouch.Unparseable "yesterday-ish")) = None ∧
  fst (FirstTouch.detect_first_touch (Samples.store_of Samples.corrupt_lead)
         Samples.lead_id (Samples.on_day 10 45 0) "U1" "Task")
  = FirstTouch.Updated Samples.lead_id (Samples.on_day 10 45 0) "U1" "Task"
      (FirstTouch.ttfr_minutes_of (Samples.on_day 10 45 0) (Samples.on_day 10 0 0))
      (FirstTouch.total_seconds (Samples.on_day 10 45 0 - Samples.on_day 10 0 0))
      false ∧
  FirstTouch.first_response_at
    (snd (FirstTouch.detect_first_touch (Samples.store_of Samples.corrupt_lead)
            Samples.lead_id (Samples.on_day 10 45 0) "U1" "Task"))
    Samples.lead_id
  = Some (FirstTouch.wall (Samples.on_day 10 45 0)
          - FirstTouch.wall (Samples.on_day 10 45 0) `mod` FirstTouch.second).
Proof.
  split; [reflexivity|]. split; [reflexivity|]. split; [reflexivity|].
  pose proof (proj1 (malformed_response_read_as_absent
                  (Samples.store_of Samples.corrupt_lead) Samples.lead_id
                  Samples.corrupt_lead (FirstTouch.Unparseable "yesterday-ish")
                  (Samples.on_day 10 45 0) "U1" "Task" eq_refl eq_refl eq_refl)
                  (Samples.on_day 10 0 0) (Samples.on_day 10 45 0)
                  eq_refl eq_refl eq_refl) as (Hr & _ & Hat).
  split; [exact Hr | exact Hat].
Defined.

(** C9 fails as stated: the lead's [First_Response_At__c] holds text that
    is not a date; the call does not fail, it reports [Updated] with
    [replaced_existing] false and overwrites the field with the candidate. *)
Lemma malformed_response_overwritten :
  FirstTouch.parse_dt (FirstTouch.First_Response_At__c Samples.corrupt_lead) = None ∧
  FirstTouch.First_Response_At__c Samples.corrupt_lead ≠ None ∧
  fst (FirstTouch.detect_first_touch (Samples.store_of Samples.corrupt_lead)
         Samples.lead_id (Samples.on_day 10 45 0) "U1" "Task")
  = FirstTouch.Updated Samples.lead_id (Samples.on_day 10 45 0) "U1" "Task" 45
      (FirstTouch.total_seconds (45 * FirstTouch.minute)) false ∧
  FirstTouch.leads
    (snd (FirstTouch.detect_first_touch (Samples.store_of Samples.corrupt_lead)
            Samples.lead_id (Samples.on_day 10 45 0) "U1" "Task"))
    !! Samples.lead_id
  = Some (FirstTouch.Lead Samples.lead_id
            (Some (FirstTouch.IsoText (Samples.on_day 10 0 0)))
            (Some (FirstTouch.IsoText (Samples.on_day 10 45 0)))
            (Some "U1") (Some "Task") (Some 45)).
Proof.
  split; [reflexivity|]. split; [discriminate|].
  split; vm_compute; reflexivity.
Qed.

(** C6: when both queries yield a candidate, the one with the strictly
    smaller timestamp is handed to [detect_first_touch], and the Task on a
    tie; when neither yields one, the result is [None] and the record store
    is left as it was. *)
Theorem earliest_source_wins
    (sf : FirstTouch.sf_client) (lead_id : string)
    (tasks emails : list FirstTouch.row) :
  FirstTouch.query sf (FirstTouch.task_soql lead_id) = inr tasks →
  FirstTouch.query sf (FirstTouch.email_soql lead_id) = inr emails →
  let by_task task_dt :=
    FirstTouch.detect_first_touch sf lead_id task_dt
      (FirstTouch.first_user tasks) "Task" in
  let by_email email_dt :=
    FirstTouch.detect_first_touch sf lead_id email_dt
      (FirstTouch.first_user emails) "EmailMessage" in
  (∀ task_dt email_dt,
     FirstTouch.earliest_dt tasks = Some task_dt →
     FirstTouch.earliest_dt emails = Some email_dt →
     (task_dt < email_dt →
      FirstTouch.find_and_record_first_touch sf lead_id
        = (Some (fst (by_task task_dt)), snd (by_task task_dt))) ∧
     (email_dt < task_dt →
      FirstTouch.find_and_record_first_touch sf lead_id
        = (Some (fst (by_email email_dt)), snd (by_email email_dt))) ∧
     (task_dt = email_dt →
      FirstTouch.find_and_record_first_touch sf lead_id
        = (Some (fst (by_task task_dt)), snd (by_task task_dt)))) ∧
  (FirstTouch.earliest_dt tasks = None →
   FirstTouch.earliest_dt emails = None →
   FirstTouch.find_and_record_first_touch sf lead_id = (None, sf)).
Proof.
  intros Ht He by_task by_email. unfold FirstTouch.find_and_record_first_touch.
  rewrite Ht, He. split.
  - intros task_dt email_dt -> ->. simpl. split; [|split].
    + intros Hlt. rewrite (proj2 (Z.leb_le _ _)); [done|lia].
    + intros Hlt. rewrite (proj2 (Z.leb_gt _ _)); [done|lia].
    + intros ->. by rewrite Z.leb_refl.
  - by intros -> ->.
Qed.

Lemma earliest_source_wins_witness :
  FirstTouch.query (Samples.store_of Samples.new_lead)
    (FirstTouch.task_soql Samples.lead_id)
    = inr [FirstTouch.Row "00T" (Some (FirstTouch.IsoText (Samples.on_day 10 30 0))) "U1"] ∧
  FirstTouch.query (Samples.store_of Samples.new_lead)
    (FirstTouch.email_soql Samples.lead_id)
    = inr [FirstTouch.Row "02s" (Some (FirstTouch.IsoText (Samples.on_day 10 25 0))) "U2"] ∧
  Samples.on_day 10 25 0 < Samples.on_day 10 30 0 ∧
  FirstTouch.find_and_record_first_touch (Samples.store_of Samples.new_lead)
    Samples.lead_id
  = (Some (fst (FirstTouch.detect_first_touch (Samples.store_of Samples.new_lead)
                  Samples.lead_id (Samples.on_day 10 25 0) "U2" "EmailMessage")),
     snd (FirstTouch.detect_first_touch (Samples.store_of Samples.new_lead)
            Samples.lead_id (Samples.on_day 10 25 0) "U2" "EmailMessage")).
Proof.
  split; [reflexivity|]. split; [reflexivity|]. split; [reflexivity|].
  exact (proj1 (proj2 (proj1 (earliest_source_wins
                  (Samples.store_of Samples.new_lead) Samples.lead_id _ _
                  eq_refl eq_refl)
                  (Samples.on_day 10 30 0) (Samples.on_day 10 25 0)
                  eq_refl eq_refl))
               eq_refl).
Defined.

(** C1, as the code has it.  The lead has a creation date and no response
    recorded, the record store accepts updates, and the candidates'
    timestamps are aware datetimes in UTC and whole seconds (what [iso]
    writes back unchanged).  Then two sequences of deliveries over the same
    set of candidates, in any order and with any repetitions, end with the
    same [first_response_at], the earliest timestamp of the set, and the
    same minutes, which are the code's [int(total_seconds() / 60)] of that
    earliest timestamp: its distance from the creation date in seconds
    over 60, truncated toward zero, when the creation date is a whole
    second less than [2 ^ 39] seconds away. *)
Theorem deliveries_converge
    (sf : FirstTouch.sf_client) (lead_id : string) (l : FirstTouch.lead)
    (created_dt m : FirstTouch.datetime) (cs1 cs2 : list FirstTouch.candidate) :
  FirstTouch.leads sf !! lead_id = Some l →
  FirstTouch.First_Response_At__c l = None →
  FirstTouch.parse_dt (FirstTouch.CreatedDate l) = Some created_dt →
  FirstTouch.update_error sf = None →
  (∀ c, c ∈ cs1 →
        FirstTouch.in_utc (FirstTouch.responded_at c) ∧
        FirstTouch.whole_second (FirstTouch.wall (FirstTouch.responded_at c))) →
  (∀ c, c ∈ cs1 ↔ c ∈ cs2) →
  FirstTouch.earliest cs1 = Some m →
  let end1 := FirstTouch.deliver_all lead_id cs1 sf in
  let end2 := FirstTouch.deliver_all lead_id cs2 sf in
  let ttfr :=
    FirstTouch.int_of
      (FirstTouch.div_by (FirstTouch.total_seconds (m - created_dt)) 60) in
  FirstTouch.first_response_at end1 lead_id = Some m ∧
  FirstTouch.first_response_at end2 lead_id = Some m ∧
  FirstTouch.time_to_first_response_minutes end1 lead_id = Some ttfr ∧
  FirstTouch.time_to_first_response_minutes end2 lead_id = Some ttfr ∧
  (FirstTouch.whole_second created_dt →
   - 2 ^ 39 * FirstTouch.second < m - created_dt < 2 ^ 39 * FirstTouch.second →
   ttfr = (m - created_dt) ÷ FirstTouch.minute).
Proof.
  intros Hl Hat Hc Hu Hw Hsame He end1 end2 ttfr.
  assert (∀ c, c ∈ cs2 →
               FirstTouch.in_utc (FirstTouch.responded_at c) ∧
               FirstTouch.whole_second (FirstTouch.wall (FirstTouch.responded_at c)))
    as Hw2.
  { intros c Hin. apply Hw. by apply Hsame. }
  destruct (deliver_all_earliest sf lead_id l created_dt cs1 m)
    as [H1 H1']; try done.
  destruct (deliver_all_earliest sf lead_id l created_dt cs2 m)
    as [H2 H2']; try done.
  { by eapply earliest_same_elements. }
  repeat split; try done.
  intros Hwc Hrange.
  apply ttfr_minutes_whole_seconds; [|done..].
  exact (earliest_whole_second cs1 m Hw He).
Qed.

Lemma deliveries_converge_witness :
  FirstTouch.leads (Samples.store_of Samples.new_lead) !! Samples.lead_id
    = Some Samples.new_lead ∧
  FirstTouch.earliest
    [Samples.task_candidate; Samples.email_candidate; Samples.task_candidate]
    = Some (Samples.on_day 10 25 0) ∧
  FirstTouch.first_response_at
    (FirstTouch.deliver_all Samples.lead_id
       [Samples.task_candidate; Samples.email_candidate; Samples.task_candidate]
       (Samples.store_of Samples.new_lead))
    Samples.lead_id = Some (Samples.on_day 10 25 0) ∧
  FirstTouch.first_response_at
    (FirstTouch.deliver_all Samples.lead_id
       [Samples.email_candidate; Samples.task_candidate]
       (Samples.store_of Samples.new_lead))
    Samples.lead_id = Some (Samples.on_day 10 25 0) ∧
  FirstTouch.time_to_first_response_minutes
    (FirstTouch.deliver_all Samples.lead_id
       [Samples.email_candidate; Samples.task_candidate]
       (Samples.store_of Samples.new_lead))
    Samples.lead_id
  = Some (FirstTouch.int_of
            (FirstTouch.div_by
               (FirstTouch.total_seconds
                  (Samples.on_day 10 25 0 - Samples.on_day 10 0 0)) 60)).
Proof.
  split; [reflexivity|]. split; [reflexivity|].
  assert (∀ c, c ∈ [Samples.task_candidate; Samples.email_candidate;
                    Samples.task_candidate] →
               FirstTouch.in_utc (FirstTouch.responded_at c) ∧
               FirstTouch.whole_second (FirstTouch.wall (FirstTouch.responded_at c)))
    as Hw.
  { intros c Hin. repeat (apply elem_of_cons in Hin as [->|Hin]);
      [split; reflexivity..|]. by apply elem_of_nil in Hin. }
  assert (∀ c, c ∈ [Samples.task_candidate; Samples.email_candidate;
                    Samples.task_candidate]
               ↔ c ∈ [Samples.email_candidate; Samples.task_candidate]) as Hsame.
  { intros c. rewrite !elem_of_cons. tauto. }
  pose proof (deliveries_converge (Samples.store_of Samples.new_lead)
                Samples.lead_id Samples.new_lead (Samples.on_day 10 0 0)
                (Samples.on_day 10 25 0) _ _ eq_refl eq_refl eq_refl eq_refl
                Hw Hsame eq_refl) as (H1 & H2 & _ & H4 & _).
  split; [exact H1|]. split; [exact H2 | exact H4].
Defined.

(** C1 fails as stated: a single candidate at 10:30:00.5 is delivered to a
    lead with no response; what is recorded is 10:30:00, not the
    candidate's timestamp, which is the minimum of the set. *)
Lemma sub_second_candidate_truncated :
  FirstTouch.earliest [Samples.late_task_candidate]
    = Some (Samples.on_day 10 30 0 + 500000) ∧
  FirstTouch.first_response_at
    (FirstTouch.deliver_all Samples.lead_id [Samples.late_task_candidate]
       (Samples.store_of Samples.new_lead))
    Samples.lead_id = Some (Samples.on_day 10 30 0) ∧
  Samples.on_day 10 30 0 ≠ Samples.on_day 10 30 0 + 500000.
Proof.
  split; [reflexivity|]. split; [vm_compute; reflexivity|]. by vm_compute.
Qed.

(** ** The scenario of the specification

    Lead created at 10:00:00; Task at 10:30:00 by U1; Email at 10:25:00 by
    U2.  The Email is recorded (25 minutes); a Task at 10:20:00 by U3
    replaces it (20 minutes); a candidate at 10:25:00 is then skipped. *)
Example scenario_email_first :
  fst (FirstTouch.find_and_record_first_touch
         (Samples.store_of Samples.new_lead) Samples.lead_id)
  = Some (FirstTouch.Updated Samples.lead_id (Samples.on_day 10 25 0) "U2"
            "EmailMessage" 25 (FirstTouch.total_seconds (25 * FirstTouch.minute))
            false).
Proof. vm_compute. reflexivity. Qed.

Example scenario_earlier_task_replaces :
  fst (FirstTouch.detect_first_touch
         (snd (FirstTouch.find_and_record_first_touch
                 (Samples.store_of Samples.new_lead) Samples.lead_id))
         Samples.lead_id (Samples.on_day 10 20 0) "U3" "Task")
  = FirstTouch.Updated Samples.lead_id (Samples.on_day 10 20 0) "U3" "Task" 20
      (FirstTouch.total_seconds (20 * FirstTouch.minute)) true.
Proof. vm_compute. reflexivity. Qed.

Example scenario_later_candidate_skipped :
  FirstTouch.detect_first_touch (Samples.store_of Samples.answered_lead)
    Samples.lead_id (Samples.on_day 10 25 0) "U2" "EmailMessage"
  = (FirstTouch.Skipped "existing_earlier" (Samples.on_day 10 20 0)
       (Samples.on_day 10 25 0),
     Samples.store_of Samples.answered_lead).
Proof. reflexivity. Qed.

(** On a tie of timestamps the responder that stays recorded is the one
    delivered first. *)
Example tie_keeps_first_delivery :
  FirstTouch.First_Response_User__c <$>
    (FirstTouch.leads
       (FirstTouch.deliver_all Samples.lead_id
          [Samples.task_candidate;
           FirstTouch.Candidate (Samples.on_day 10 30 0) "U2" "EmailMessage"]
          (Samples.store_of Samples.new_lead)) !! Samples.lead_id)
  = Some (Some "U1") ∧
  FirstTouch.First_Response_User__c <$>
    (FirstTouch.leads
       (FirstTouch.deliver_all Samples.lead_id
          [FirstTouch.Candidate (Samples.on_day 10 30 0) "U2" "EmailMessage";
           Samples.task_candidate]
          (Samples.store_of Samples.new_lead)) !! Samples.lead_id)
  = Some (Some "U2").
Proof. split; vm_compute; reflexivity. Qed.
(** * Further properties *)

(** ** The cursor store: start-up, reset and overwriting *)

Section replay_store_more.
Import ReplayStore.

Lemma get_of_read st data ch : _read st = inr data → get ch st = inr (data !! ch).
Proof. unfold get. by intros ->. Qed.

(** A read that succeeded rules out the unreadable file. *)
Lemma read_ok_readable st data :
  _read st = inr data → ∀ c w, st ≠ Present c false w.
Proof. intros Hr c w ->. by simplify_eq/=. Qed.

(** A [set] on another channel leaves this channel's answer alone. *)
Lemma set_other_channel ch ch' tok st st' :
  ch ≠ ch' → set ch' tok st = (inr tt, st') → get ch st' = get ch st.
Proof.
  intros Hne Hs. destruct (set_ok_inv _ _ _ _ Hs) as (data & Hr & Hr').
  rewrite (get_of_read _ _ _ Hr), (get_of_read _ _ _ Hr').
  by rewrite lookup_insert_ne.
Qed.

(** The errors the store raises are ordinary exceptions. *)
Lemma read_error_is_Exception st e : _read st = inl e → is_Exception e = true.
Proof.
  unfold _read, load, read_text, json_loads.
  repeat case_match; intros; by simplify_eq/=.
Qed.

Lemma write_error_is_Exception data st e st' :
  _write data st = (inl e, st') → is_Exception e = true.
Proof. unfold _write. repeat case_match; intros; by simplify_eq/=. Qed.

Lemma set_error_is_Exception ch tok st e st' :
  set ch tok st = (inl e, st') → is_Exception e = true.
Proof.
  unfold set. destruct (_read st) as [e'|data] eqn:Hr.
  - intros [= <- <-]. by eapply read_error_is_Exception.
  - apply write_error_is_Exception.
Qed.

(** A write that fails leaves the file as it was, unless the device is
    full: then the file is left empty. *)
Lemma write_error_state data st e st' :
  _write data st = (inl e, st') →
  st' = st ∨ ∃ c r, st = Full c r ∧ st' = Full (Garbled "") r.
Proof.
  destruct st as [[]|c r []|c r]; intros; simplify_eq/=; eauto.
Qed.

Lemma set_error_state ch tok st e st' :
  set ch tok st = (inl e, st') →
  st' = st ∨ ∃ c r, st = Full c r ∧ st' = Full (Garbled "") r.
Proof.
  unfold set. destruct (_read st) as [e'|data] eqn:Hr.
  - intros [= <- <-]. by left.
  - apply write_error_state.
Qed.

(** Writing twice is writing the second mapping. *)
Lemma write_write d d' st st1 st2 :
  _write d st = (inr tt, st1) → _write d' st1 = (inr tt, st2) →
  _write d' st = (inr tt, st2).
Proof. destruct st as [[]|c [] []|c r]; intros; by simplify_eq/=. Qed.

End replay_store_more.

(** X1: constructing a [ReplayStore] over a missing file creates the
    file, holding the empty mapping; over an existing file it leaves the
    file as it is; and in every case each channel's cursor reads the same
    after the constructor as before it. *)
Theorem init_keeps_cursors (st st' : ReplayStore.t) :
  ReplayStore.init st = (inr tt, st') →
  (∀ creatable, st = ReplayStore.Missing creatable →
                st' = ReplayStore.Present (ReplayStore.JsonObject ∅) true true) ∧
  (∀ c r w, st = ReplayStore.Present c r w → st' = st) ∧
  (∀ c r, st = ReplayStore.Full c r → st' = st) ∧
  (∀ channel, ReplayStore.get channel st' = ReplayStore.get channel st).
Proof.
  intros Hi. split; [|split; [|split]].
  - intros creatable ->. destruct creatable; by simplify_eq/=.
  - intros c r w ->. by simplify_eq/=.
  - intros c r ->. by simplify_eq/=.
  - intros channel. destruct st as [[]|c r w|c r]; by simplify_eq/=.
Qed.

Lemma init_keeps_cursors_witness :
  ReplayStore.init (ReplayStore.Missing true)
  = (inr tt, ReplayStore.Present (ReplayStore.JsonObject ∅) true true) ∧
  ReplayStore.get_all (ReplayStore.Present (ReplayStore.JsonObject ∅) true true)
  = inr ∅ ∧
  (∀ creatable, ReplayStore.Missing true = ReplayStore.Missing creatable →
     ReplayStore.Present (ReplayStore.JsonObject ∅) true true
     = ReplayStore.Present (ReplayStore.JsonObject ∅) true true) ∧
  ∀ channel,
    ReplayStore.get channel
      (ReplayStore.Present (ReplayStore.JsonObject ∅) true true)
    = ReplayStore.get channel (ReplayStore.Missing true).
Proof.
  split; [reflexivity|]. split; [reflexivity|].
  pose proof (init_keeps_cursors (ReplayStore.Missing true)
                (ReplayStore.Present (ReplayStore.JsonObject ∅) true true)
                eq_refl) as (Hcreated & _ & _ & Hsame).
  split; [exact Hcreated | exact Hsame].
Defined.

(** X2: after [clear(channel)] for a named channel returns, that channel
    has no cursor and every other channel reads as before; when the channel
    had no cursor to begin with, nothing is written and the file is left
    exactly as it was. *)
Theorem clear_one_channel (st st' : ReplayStore.t) (channel : string) :
  channel ≠ "" →
  ReplayStore.clear (Some channel) st = (inr tt, st') →
  ReplayStore.get channel st' = inr None ∧
  (∀ other, other ≠ channel →
            ReplayStore.get other st' = ReplayStore.get other st) ∧
  (ReplayStore.get channel st = inr None → st' = st).
Proof.
  intros Hne Hc. unfold ReplayStore.clear in Hc.
  rewrite bool_decide_eq_false_2 in Hc by done.
  destruct (ReplayStore._read st) as [e|data] eqn:Hr; [by simplify_eq|].
  destruct (data !! channel) as [tok|] eqn:Hl.
  - assert (ReplayStore._read st' = inr (delete channel data)) as Hr'.
    { eapply write_then_read; [done|]. by eapply read_ok_readable. }
    split; [|split].
    + rewrite (get_of_read _ _ _ Hr'). by rewrite lookup_delete_eq.
    + intros other Ho.
      rewrite (get_of_read _ _ _ Hr), (get_of_read _ _ _ Hr').
      by rewrite lookup_delete_ne.
    + rewrite (get_of_read _ _ _ Hr), Hl. done.
  - simplify_eq. split; [|done].
    rewrite (get_of_read _ _ _ Hr). by rewrite Hl.
Qed.

Lemma clear_one_channel_witness :
  "ch1" ≠ "" ∧
  ReplayStore.clear (Some "ch1")
    (ReplayStore.Present
       (ReplayStore.JsonObject (<["ch1" := "100"]> {["ch2" := "7"]})) true true)
  = (inr tt,
     ReplayStore.Present
       (ReplayStore.JsonObject (delete "ch1" (<["ch1" := "100"]> {["ch2" := "7"]})))
       true true) ∧
  ReplayStore.get "ch1"
    (ReplayStore.Present
       (ReplayStore.JsonObject (delete "ch1" (<["ch1" := "100"]> {["ch2" := "7"]})))
       true true)
  = inr None.
Proof.
  split; [done|]. split; [reflexivity|].
  refine (proj1 (clear_one_channel
                   (ReplayStore.Present
                      (ReplayStore.JsonObject (<["ch1" := "100"]> {["ch2" := "7"]})) true true)
                   _ "ch1" _ eq_refl)). done.
Defined.

(** X3: [clear()] without a channel, and also [clear("")] (an empty name
    is falsy), drops every cursor: no channel has one afterwards, and a
    store that could be read before reads as the empty mapping. *)
Theorem clear_all_channels
    (st st' : ReplayStore.t) (channel : option string) :
  channel = None ∨ channel = Some "" →
  ReplayStore.clear channel st = (inr tt, st') →
  (∀ ch tok, ReplayStore.get ch st' ≠ inr (Some tok)) ∧
  (∀ data, ReplayStore.get_all st = inr data →
           ReplayStore.get_all st' = inr ∅).
Proof.
  intros Hch Hc.
  assert (ReplayStore._write ∅ st = (inr tt, st')) as Hw.
  { destruct Hch as [->| ->]; exact Hc. }
  clear Hc Hch. split.
  - intros ch tok. destruct st as [[]|c [] []|c r]; by simplify_eq/=.
  - intros data Hr. unfold ReplayStore.get_all in *.
    eapply write_then_read; [done|]. by eapply read_ok_readable.
Qed.

Lemma clear_all_channels_witness :
  (Some "" = None ∨ Some "" = Some "") ∧
  ReplayStore.clear (Some "")
    (ReplayStore.Present (ReplayStore.JsonObject {["ch1" := "100"]}) true true)
  = (inr tt, ReplayStore.Present (ReplayStore.JsonObject ∅) true true) ∧
  ReplayStore.get_all (ReplayStore.Present (ReplayStore.JsonObject ∅) true true)
  = inr ∅.
Proof.
  split; [by right|]. split; [reflexivity|].
  exact (proj2 (clear_all_channels
                  (ReplayStore.Present (ReplayStore.JsonObject {["ch1" := "100"]}) true true)
                  (ReplayStore.Present (ReplayStore.JsonObject ∅) true true)
                  (Some "") (or_intror eq_refl) eq_refl)
           {["ch1" := "100"]} eq_refl).
Defined.

(** X4: [set] followed by [get_all] is the mapping read before with the
    one channel replaced.  In particular a store whose file was missing or
    not valid JSON holds exactly the one cursor afterwards. *)
Theorem set_then_get_all
    (st st' : ReplayStore.t) (channel tok : string) (data : gmap string string) :
  ReplayStore.get_all st = inr data →
  ReplayStore.set channel tok st = (inr tt, st') →
  ReplayStore.get_all st' = inr (<[channel := tok]> data).
Proof.
  unfold ReplayStore.get_all. intros Hr Hs.
  destruct (set_ok_inv _ _ _ _ Hs) as (data' & Hr' & Hr'').
  rewrite Hr in Hr'. by simplify_eq.
Qed.

Lemma set_then_get_all_witness :
  ReplayStore.get_all (ReplayStore.Present (ReplayStore.Garbled "{") true true)
  = inr ∅ ∧
  ReplayStore.set "ch1" "100" (ReplayStore.Present (ReplayStore.Garbled "{") true true)
  = (inr tt, ReplayStore.Present (ReplayStore.JsonObject (<["ch1" := "100"]> ∅)) true true) ∧
  ReplayStore.get_all
    (ReplayStore.Present (ReplayStore.JsonObject (<["ch1" := "100"]> ∅)) true true)
  = inr (<["ch1" := "100"]> ∅).
Proof.
  split; [reflexivity|]. split; [reflexivity|].
  apply (set_then_get_all (ReplayStore.Present (ReplayStore.Garbled "{") true true)
           _ "ch1" "100" ∅); reflexivity.
Defined.

(** X5: a second [set] on the same channel overwrites the first: the
    store ends exactly as if only the second had been made. *)
Theorem set_overwrites
    (st st1 st2 : ReplayStore.t) (channel tok1 tok2 : string) :
  ReplayStore.set channel tok1 st = (inr tt, st1) →
  ReplayStore.set channel tok2 st1 = (inr tt, st2) →
  ReplayStore.set channel tok2 st = (inr tt, st2).
Proof.
  intros H1 H2.
  destruct (set_ok_inv _ _ _ _ H1) as (data & Hr & Hr1).
  unfold ReplayStore.set in *. rewrite Hr in *. rewrite Hr1 in H2.
  rewrite insert_insert_eq in H2. by eapply write_write.
Qed.

Lemma set_overwrites_witness :
  ReplayStore.set "ch1" "100" (ReplayStore.Missing true)
  = (inr tt, ReplayStore.Present (ReplayStore.JsonObject (<["ch1" := "100"]> ∅)) true true) ∧
  ReplayStore.set "ch1" "101"
    (ReplayStore.Present (ReplayStore.JsonObject (<["ch1" := "100"]> ∅)) true true)
  = (inr tt,
     ReplayStore.Present
       (ReplayStore.JsonObject (<["ch1" := "101"]> (<["ch1" := "100"]> ∅))) true true) ∧
  ReplayStore.set "ch1" "101" (ReplayStore.Missing true)
  = (inr tt,
     ReplayStore.Present
       (ReplayStore.JsonObject (<["ch1" := "101"]> (<["ch1" := "100"]> ∅))) true true).
Proof.
  split; [reflexivity|]. split; [reflexivity|].
  apply (set_overwrites (ReplayStore.Missing true)
           (ReplayStore.Present (ReplayStore.JsonObject (<["ch1" := "100"]> ∅)) true true)
           _ "ch1" "100" "101"); reflexivity.
Defined.

(** ** The dispatcher: classification, isolation of failures, metrics *)

Section subscriber_more.
Import CDCSubscriber Polling.
Local Open Scope list_scope.
Local Arguments ReplayStore.set : simpl never.
Local Arguments ReplayStore.get : simpl never.

Ltac unfold_event :=
  unfold effects_of, _process_event, try_except, process_body, on_error,
    persist_replay_id, call_handler, call, store_set, inc_errors, log,
    modify, bind, ret, raise in *; simpl in *.

Ltac flatten :=
  repeat rewrite <- app_assoc in *;
  rewrite ?drop_app_length, ?drop_all, ?app_nil_r in *; simpl in *.

Ltac members H :=
  repeat (apply elem_of_cons_inv in H as [H|H]);
  simplify_eq; try (by apply elem_of_nil in H).

Lemma append_cons a (s u : string) : String a s +:+ u = String a (s +:+ u).
Proof. reflexivity. Qed.

Lemma append_empty (u : string) : "" +:+ u = u.
Proof. reflexivity. Qed.

Lemma prefix_occurs sub s :
  String.prefix sub s = true ↔ ∃ post, s = sub +:+ post.
Proof.
  revert s. induction sub as [|a sub IH]; intros s; simpl.
  - destruct s; split; eauto.
  - destruct s as [|b s]; simpl.
    + split; [done|]. intros [post Hp]. by rewrite append_cons in Hp.
    + destruct (Ascii.ascii_dec a b) as [->|Hne].
      * rewrite IH. split; intros [post Hp]; exists post;
          rewrite append_cons in *; congruence.
      * split; [done|]. intros [post Hp]. rewrite append_cons in Hp.
        congruence.
Qed.

(** [contains] decides occurrence as a substring. *)
Lemma contains_occurs sub s : contains sub s = true ↔ occurs_in sub s.
Proof.
  unfold occurs_in. induction s as [|b s IH].
  - change (contains sub "") with (String.prefix sub "" || false).
    rewrite orb_false_r, prefix_occurs. split.
    + intros [post Hp]. by exists "", post.
    + intros ([|? pre] & post & Hp).
      * rewrite append_empty in Hp. by exists post.
      * by rewrite append_cons in Hp.
  - change (contains sub (String b s))
      with (String.prefix sub (String b s) || contains sub s).
    rewrite orb_true_iff, prefix_occurs, IH. split.
    + intros [[post Hp]|(pre & post & Hp)].
      * by exists "", post.
      * exists (String b pre), post. rewrite append_cons. by rewrite Hp.
    + intros ([|a pre] & post & Hp).
      * left. rewrite append_empty in Hp. by exists post.
      * right. exists pre, post. rewrite append_cons in Hp. congruence.
Qed.

Lemma contains_not_occurs sub s : contains sub s = false ↔ ¬ occurs_in sub s.
Proof. rewrite <- contains_occurs. by destruct (contains sub s). Qed.

(** The metrics step, with what it does to the counters. *)
Lemma update_metrics_counts s ch ev now :
  ∃ s1, update_metrics ch ev now s = (inr tt, s1) ∧
        replay_store s1 = replay_store s ∧
        handlers s1 = handlers s ∧
        journal s1 = journal s ∧
        cdc_events_total s1
          = bump (_extract_object_name ch,
                  default "UNKNOWN" (changeType (header_of (payload_of ev))))
              (cdc_events_total s) ∧
        cdc_errors_total s1 = cdc_errors_total s.
Proof.
  unfold update_metrics, inc_events, set_lag, modify, bind, ret. simpl.
  repeat case_match; simplify_eq/=; eauto 10.
Qed.

Ltac open_event s ch ev now :=
  let s1 := fresh "s1" in
  let Hm := fresh "Hm" in
  let Hst := fresh "Hst" in
  let Hh := fresh "Hh" in
  let Hj := fresh "Hj" in
  let Hev := fresh "Hev" in
  let Her := fresh "Her" in
  destruct (update_metrics_counts s ch ev now)
    as (s1 & Hm & Hst & Hh & Hj & Hev & Her);
  unfold_event; rewrite Hm in *; simpl in *.

(** Where the cursor store ends up after one call. *)
Lemma process_event_store s ch ev now :
  replay_store (snd (_process_event ch ev now s))
  = match replay_id_of ev with
    | Some v =>
        if truthy v
        then snd (ReplayStore.set ch (str v) (replay_store s))
        else replay_store s
    | None => replay_store s
    end.
Proof.
  open_event s ch ev now.
  destruct (replay_id_of ev) as [v|]; [destruct (truthy v)|]; simpl;
    rewrite ?Hst;
    repeat case_match; by simplify_eq/=.
Qed.

(** Everything [_process_event] lets through was raised by the handler and
    is not an [Exception]. *)
Lemma process_event_escape s ch ev now e :
  fst (_process_event ch ev now s) = inl e →
  is_Exception e = false ∧ HandlerRaised ch e ∈ effects_of ch ev now s.
Proof.
  open_event s ch ev now.
  destruct (replay_id_of ev) as [v|]; [destruct (truthy v)|]; simpl.
  1: destruct (ReplayStore.set ch (str v) (replay_store s1))
       as [[e'|[]] st] eqn:Hs; simpl;
     [apply set_error_is_Exception in Hs as ->; simpl; done|].
  all: repeat case_match; simplify_eq/=; rewrite ?Hj; flatten; try done;
    intros; simplify_eq; (split; [done|]);
    rewrite !elem_of_cons; eauto 10.
Qed.

(** X6: [_extract_object_name] goes by substrings of the channel name, in
    the order Lead, Task, EmailMessage: a channel in which "Lead" occurs is
    a Lead channel whatever else occurs in it, and the answer is "Unknown"
    exactly when none of the three names occurs. *)
Theorem extract_object_name_by_substring (channel : string) :
  (occurs_in "Lead" channel → _extract_object_name channel = "Lead") ∧
  (¬ occurs_in "Lead" channel → occurs_in "Task" channel →
   _extract_object_name channel = "Task") ∧
  (¬ occurs_in "Lead" channel → ¬ occurs_in "Task" channel →
   occurs_in "EmailMessage" channel →
   _extract_object_name channel = "EmailMessage") ∧
  (_extract_object_name channel = "Unknown" ↔
   ¬ occurs_in "Lead" channel ∧ ¬ occurs_in "Task" channel ∧
   ¬ occurs_in "EmailMessage" channel).
Proof.
  unfold _extract_object_name.
  rewrite <- !contains_not_occurs, <- !contains_occurs.
  destruct (contains "Lead" channel), (contains "Task" channel),
    (contains "EmailMessage" channel); intuition congruence.
Qed.

Lemma extract_object_name_by_substring_witness :
  occurs_in "Lead" "/data/LeadTaskChangeEvent" ∧
  _extract_object_name "/data/LeadTaskChangeEvent" = "Lead".
Proof.
  assert (occurs_in "Lead" "/data/LeadTaskChangeEvent") as Hocc.
  { exists "/data/", "TaskChangeEvent". reflexivity. }
  split; [exact Hocc|].
  exact (proj1 (extract_object_name_by_substring "/data/LeadTaskChangeEvent") Hocc).
Defined.

(** X7: the only thing [_process_event] lets through is an exception
    raised by the handler that is not an [Exception] (a
    [KeyboardInterrupt], a [SystemExit]); a failure of the cursor store is
    never let through. *)
Theorem only_handler_base_exceptions_escape
    (s : t) (channel : string) (ev : event) (now_ms : Z) (e : exn) :
  fst (_process_event channel ev now_ms s) = inl e →
  is_Exception e = false ∧
  HandlerRaised channel e ∈ effects_of channel ev now_ms s.
Proof. apply process_event_escape. Qed.

Lemma only_handler_base_exceptions_escape_witness :
  fst (_process_event Samples.lead_channel Samples.lead_create Samples.now_ms
         (Samples.subscriber_with Samples.interrupted_handler))
    = inl (Exn "KeyboardInterrupt" "") ∧
  is_Exception (Exn "KeyboardInterrupt" "") = false.
Proof.
  split; [reflexivity|].
  exact (proj1 (only_handler_base_exceptions_escape
                  (Samples.subscriber_with Samples.interrupted_handler)
                  Samples.lead_channel Samples.lead_create Samples.now_ms
                  (Exn "KeyboardInterrupt" "") eq_refl)).
Defined.

(** X8: when the envelope carries a token and the cursor store fails to
    write it, [_process_event] records that error and returns; the handler
    is not invoked for this envelope, and the cursor file is left as the
    failed [set] left it. *)
Theorem store_failure_skips_handler
    (s : t) (channel : string) (ev : event) (now_ms : Z) (v : pyval)
    (e : exn) (st : ReplayStore.t) :
  replay_id_of ev = Some v →
  truthy v = true →
  ReplayStore.set channel (str v) (replay_store s) = (inl e, st) →
  fst (_process_event channel ev now_ms s) = inr tt ∧
  effects_of channel ev now_ms s = [ErrorRecorded channel e] ∧
  replay_store (snd (_process_event channel ev now_ms s)) = st.
Proof.
  intros Hv Ht Hs.
  pose proof (set_error_is_Exception _ _ _ _ _ Hs) as He.
  split; [|split].
  - open_event s channel ev now_ms. rewrite Hv, Ht. simpl.
    rewrite Hst, Hs. simpl. by rewrite He.
  - open_event s channel ev now_ms. rewrite Hv, Ht. simpl.
    rewrite Hst, Hs. simpl. rewrite He. simpl. rewrite Hj. by flatten.
  - rewrite process_event_store, Hv, Ht. by rewrite Hs.
Qed.

Lemma store_failure_skips_handler_witness :
  replay_id_of Samples.lead_create = Some (PyInt 42183991) ∧
  truthy (PyInt 42183991) = true ∧
  ReplayStore.set Samples.lead_channel (str (PyInt 42183991))
    (replay_store (Samples.full_disk_subscriber Samples.ok_handler))
  = (inl ReplayStore.OSError,
     ReplayStore.Full (ReplayStore.Garbled "") true) ∧
  fst (_process_event Samples.lead_channel Samples.lead_create Samples.now_ms
         (Samples.full_disk_subscriber Samples.ok_handler)) = inr tt ∧
  effects_of Samples.lead_channel Samples.lead_create Samples.now_ms
    (Samples.full_disk_subscriber Samples.ok_handler)
  = [ErrorRecorded Samples.lead_channel ReplayStore.OSError] ∧
  replay_store
    (snd (_process_event Samples.lead_channel Samples.lead_create
            Samples.now_ms (Samples.full_disk_subscriber Samples.ok_handler)))
  = ReplayStore.Full (ReplayStore.Garbled "") true.
Proof.
  split; [reflexivity|]. split; [reflexivity|]. split; [reflexivity|].
  exact (store_failure_skips_handler
           (Samples.full_disk_subscriber Samples.ok_handler)
           Samples.lead_channel Samples.lead_create Samples.now_ms
           (PyInt 42183991) ReplayStore.OSError
           (ReplayStore.Full (ReplayStore.Garbled "") true)
           eq_refl eq_refl eq_refl).
Defined.

(** The same on a file that cannot be opened for writing: the file stays
    as it was. *)
Example read_only_store_keeps_file :
  effects_of Samples.lead_channel Samples.lead_create Samples.now_ms
    (Samples.read_only_subscriber Samples.ok_handler)
  = [ErrorRecorded Samples.lead_channel PermissionError] ∧
  replay_store
    (snd (_process_event Samples.lead_channel Samples.lead_create
            Samples.now_ms (Samples.read_only_subscriber Samples.ok_handler)))
  = replay_store (Samples.read_only_subscriber Samples.ok_handler).
Proof. split; reflexivity. Qed.


(** X10: unless the device of the cursor file is full, processing an
    envelope on one channel never changes what the cursor store answers
    for another channel. *)
Theorem other_channel_cursor_untouched
    (s : t) (ch1 ch2 : string) (ev : event) (now_ms : Z) :
  ch1 ≠ ch2 →
  (∀ c r, replay_store s ≠ ReplayStore.Full c r) →
  ReplayStore.get ch1 (replay_store (snd (_process_event ch2 ev now_ms s)))
  = ReplayStore.get ch1 (replay_store s).
Proof.
  intros Hne Hroom. rewrite process_event_store.
  destruct (replay_id_of ev) as [v|]; [|done].
  destruct (truthy v); [|done].
  destruct (ReplayStore.set ch2 (str v) (replay_store s)) as [[e|[]] st] eqn:Hs.
  - destruct (set_error_state _ _ _ _ _ Hs) as [->|(c & r & Hfull & _)];
      [done|]. by destruct (Hroom c r).
  - by eapply set_other_channel.
Qed.

Lemma other_channel_cursor_untouched_witness :
  "/data/TaskChangeEvent" ≠ Samples.lead_channel ∧
  (∀ c r, replay_store (Samples.subscriber_with Samples.ok_handler)
          ≠ ReplayStore.Full c r) ∧
  ReplayStore.get "/data/TaskChangeEvent"
    (replay_store
       (snd (_process_event Samples.lead_channel Samples.lead_create
               Samples.now_ms (Samples.subscriber_with Samples.ok_handler))))
  = ReplayStore.get "/data/TaskChangeEvent"
      (replay_store (Samples.subscriber_with Samples.ok_handler)).
Proof.
  assert ("/data/TaskChangeEvent" ≠ Samples.lead_channel) as Hne by done.
  assert (∀ c r, replay_store (Samples.subscriber_with Samples.ok_handler)
                 ≠ ReplayStore.Full c r) as Hroom by done.
  split; [exact Hne|]. split; [exact Hroom|].
  exact (other_channel_cursor_untouched
           (Samples.subscriber_with Samples.ok_handler)
           "/data/TaskChangeEvent" Samples.lead_channel Samples.lead_create
           Samples.now_ms Hne Hroom).
Defined.

(** On a full device the write of one channel's token empties the file,
    and the cursor of every other channel is lost with it. *)
Example full_disk_loses_other_cursor :
  ReplayStore.get "/data/TaskChangeEvent"
    (replay_store (Samples.full_disk_subscriber Samples.ok_handler))
  = inr (Some "77") ∧
  ReplayStore.get "/data/TaskChangeEvent"
    (replay_store
       (snd (_process_event Samples.lead_channel Samples.lead_create
               Samples.now_ms (Samples.full_disk_subscriber Samples.ok_handler))))
  = inr None.
Proof. split; reflexivity. Qed.

(** X11: the only callback [_process_event] ever invokes is the one
    registered for the channel of the call, and it is given the payload of
    the envelope; with no handler registered nothing is invoked and the
    call returns. *)
Theorem only_registered_handler_invoked
    (s : t) (channel : string) (ev : event) (now_ms : Z) :
  (∀ c p, HandlerCalled c p ∈ effects_of channel ev now_ms s →
          c = channel ∧ p = payload_of ev ∧ is_Some (handlers s !! channel)) ∧
  (handlers s !! channel = None →
   fst (_process_event channel ev now_ms s) = inr tt).
Proof.
  split.
  - intros c p. open_event s channel ev now_ms. rewrite ?Hh.
    repeat case_match; simplify_eq/=; rewrite ?Hj; flatten;
      intros Hin; members Hin.
    all: repeat split; try done; rewrite <- Hh; by eexists.
  - intros Hnone.
    destruct (fst (_process_event channel ev now_ms s)) as [e|[]] eqn:Hr; [|done].
    apply process_event_escape in Hr as [_ Hin]. exfalso. revert Hin.
    open_event s channel ev now_ms. rewrite <- Hh in Hnone.
    repeat case_match; simplify_eq/=; rewrite ?Hj; flatten;
      intros Hin; members Hin.
Qed.

End subscriber_more.

(** ** Batches, polling and health *)

Section polling_facts.
Import CDCSubscriber Polling.
Local Open Scope list_scope.
Local Arguments ReplayStore.set : simpl never.
Local Arguments ReplayStore.get : simpl never.

Lemma set_on_healthy ch tok data :
  ReplayStore.set ch tok (ReplayStore.Present (ReplayStore.JsonObject data) true true)
  = (inr tt,
     ReplayStore.Present (ReplayStore.JsonObject (<[ch := tok]> data)) true true).
Proof. reflexivity. Qed.

Lemma get_on_healthy ch data :
  ReplayStore.get ch (ReplayStore.Present (ReplayStore.JsonObject data) true true)
  = inr (data !! ch).
Proof. reflexivity. Qed.

Lemma process_event_healthy s ch ev now :
  healthy (replay_store s) →
  healthy (replay_store (snd (_process_event ch ev now s))).
Proof.
  intros [data Hd]. rewrite process_event_store, Hd.
  destruct (replay_id_of ev) as [v|]; [|by exists data].
  destruct (truthy v); [|by exists data].
  rewrite set_on_healthy. by eexists.
Qed.

(** On a healthy store a token that is carried is the cursor afterwards. *)
Lemma process_event_cursor s ch ev now v :
  healthy (replay_store s) →
  replay_id_of ev = Some v → truthy v = true →
  ReplayStore.get ch (replay_store (snd (_process_event ch ev now s)))
  = inr (Some (str v)).
Proof.
  intros [data Hd] Hv Ht. rewrite process_event_store, Hd, Hv, Ht.
  rewrite set_on_healthy. simpl. rewrite get_on_healthy.
  by rewrite lookup_insert_eq.
Qed.



(** A converted record whose header was replaced is recorded as an
    [AttributeError]: nothing is counted as an event, nothing is stored,
    no handler runs. *)
Lemma process_converted_mistyped s ch c now text :
  conv_header c = inr text →
  _process_converted ch c now s
  = (inr tt,
     Subscriber (replay_store s) (handlers s) (cdc_events_total s)
       (cdc_lag_ms s)
       (bump (_extract_object_name ch, "AttributeError") (cdc_errors_total s))
       (last_event_ts s) (journal s ++ [ErrorRecorded ch AttributeError])).
Proof. unfold _process_converted. by intros ->. Qed.

Lemma process_converted_healthy s ch c now :
  healthy (replay_store s) →
  healthy (replay_store (snd (_process_converted ch c now s))).
Proof.
  intros Hs. destruct (conv_header c) as [h|text] eqn:Hh.
  - unfold _process_converted. rewrite Hh. by apply process_event_healthy.
  - by rewrite (process_converted_mistyped _ _ _ _ text).
Qed.

Lemma process_converted_escape s ch c now e :
  fst (_process_converted ch c now s) = inl e → is_Exception e = false.
Proof.
  destruct (conv_header c) as [h|text] eqn:Hh.
  - unfold _process_converted. rewrite Hh. intros He.
    by apply (process_event_escape s ch (envelope c h) now e).
  - by rewrite (process_converted_mistyped _ _ _ _ text).
Qed.

Lemma process_records_app ch obj rs1 rs2 now s :
  process_records ch obj (rs1 ++ rs2) now s
  = bind (process_records ch obj rs1 now)
      (λ _, process_records ch obj rs2 now) s.
Proof.
  revert s. induction rs1 as [|r rs1 IH]; intros s; [done|].
  simpl. destruct (_convert_to_cdc_event ch obj r now) as [e|c]; [done|].
  unfold bind in *.
  destruct (_process_converted ch c now s) as [[e|[]] s1]; [done|]. apply IH.
Qed.

Lemma process_records_healthy ch obj rs now s :
  healthy (replay_store s) →
  healthy (replay_store (snd (process_records ch obj rs now s))).
Proof.
  revert s. induction rs as [|r rs IH]; intros s Hs; [done|].
  simpl. destruct (_convert_to_cdc_event ch obj r now) as [e|c]; [done|].
  unfold bind.
  pose proof (process_converted_healthy s ch c now Hs) as Hs1.
  destruct (_process_converted ch c now s) as [[e|[]] s1]; [done|]. by apply IH.
Qed.

(** What the conversion makes of a record that has no field named
    [ChangeEventHeader]: an envelope with the header built for it. *)
Lemma convert_record ch obj (r : record) now id :
  r !! "Id" = Some id →
  r !! "ChangeEventHeader" = None →
  ∃ c ev, _convert_to_cdc_event ch obj r now = inr c ∧
          _process_converted ch c now = _process_event ch ev now ∧
          replay_id_of ev = Some (PyStr (default "" (r !! "SystemModstamp"))) ∧
          fields (payload_of ev) = r ∧
          changeType (header_of (payload_of ev)) = Some "UPDATE" ∧
          recordIds (header_of (payload_of ev)) = [id].
Proof.
  intros Hid Hh. unfold _convert_to_cdc_event. rewrite Hid, Hh.
  eexists _, _. split; [done|]. split; [done|]. simpl.
  by rewrite delete_id.
Qed.

(** What it makes of a record that has one: the field takes the place of
    the header. *)
Lemma convert_record_mistyped ch obj (r : record) now id text :
  r !! "Id" = Some id →
  r !! "ChangeEventHeader" = Some text →
  ∃ c, _convert_to_cdc_event ch obj r now = inr c ∧ conv_header c = inr text.
Proof.
  intros Hid Hh. unfold _convert_to_cdc_event. rewrite Hid, Hh. by eexists.
Qed.

(** Processing a batch of one record. *)
Lemma process_one_record ch obj (r : record) now s c :
  _convert_to_cdc_event ch obj r now = inr c →
  snd (process_records ch obj [r] now s) = snd (_process_converted ch c now s) ∧
  fst (process_records ch obj [r] now s) = fst (_process_converted ch c now s).
Proof.
  intros Hc. simpl. rewrite Hc. unfold bind.
  by destruct (_process_converted ch c now s) as [[e|[]] s1].
Qed.

Lemma process_records_escape ch obj rs now s e :
  fst (process_records ch obj rs now s) = inl e →
  is_Exception e = false ∨
  ∃ pre r post, rs = pre ++ r :: post ∧ r !! "Id" = None.
Proof.
  revert s. induction rs as [|r rs IH]; intros s; [done|].
  simpl. destruct (_convert_to_cdc_event ch obj r now) as [e'|c] eqn:Hc.
  - intros _. right. exists [], r, rs. split; [done|].
    unfold _convert_to_cdc_event in Hc. by case_match.
  - unfold bind.
    destruct (_process_converted ch c now s) as [[e'|[]] s1] eqn:Hp; simpl.
    + intros [= ->]. left.
      by apply (process_converted_escape s ch c now e); rewrite Hp.
    + intros Hr. destruct (IH _ Hr) as [?|(pre & r' & post & -> & Hid)];
        [by left|].
      right. by exists (r :: pre), r', post.
Qed.



(** X13: a polled record that has its [Id] is converted and processed.
    When it has no field named [ChangeEventHeader]: on a healthy store its
    [SystemModstamp], when it has a non-empty one, becomes the cursor of
    the channel, and without one the cursor store is left as it was.  When
    it has such a field, the field takes the place of the header: the
    event is not counted, no cursor is set and no handler is called; an
    [AttributeError] is recorded and counted instead. *)
Theorem polled_record_cursor
    (s : t) (channel object_name id : string) (r : record) (now_ms : Z) :
  r !! "Id" = Some id →
  healthy (replay_store s) →
  let s' := snd (process_records channel object_name [r] now_ms s) in
  (r !! "ChangeEventHeader" = None →
   (∀ stamp, r !! "SystemModstamp" = Some stamp → stamp ≠ "" →
             ReplayStore.get channel (replay_store s') = inr (Some stamp)) ∧
   (r !! "SystemModstamp" = None ∨ r !! "SystemModstamp" = Some "" →
    replay_store s' = replay_store s)) ∧
  (∀ text, r !! "ChangeEventHeader" = Some text →
     replay_store s' = replay_store s ∧
     cdc_events_total s' = cdc_events_total s ∧
     cdc_errors_total s'
       = bump (_extract_object_name channel, "AttributeError")
           (cdc_errors_total s) ∧
     journal s' = journal s ++ [ErrorRecorded channel AttributeError]).
Proof.
  intros Hid Hs. cbv zeta. split.
  - intros Hh.
    destruct (convert_record channel object_name r now_ms id Hid Hh)
      as (c & ev & Hc & Hp & Hrid & _).
    destruct (process_one_record channel object_name r now_ms s c Hc) as [Hs' _].
    rewrite Hs', Hp. split.
    + intros stamp Hst Hne. rewrite Hst in Hrid. simpl in Hrid.
      apply (process_event_cursor s channel ev now_ms _ Hs Hrid).
      simpl. by rewrite bool_decide_eq_false_2.
    + intros Hno. rewrite process_event_store, Hrid.
      by destruct Hno as [-> | ->].
  - intros text Hh.
    destruct (convert_record_mistyped channel object_name r now_ms id text
                Hid Hh) as (c & Hc & Hhead).
    destruct (process_one_record channel object_name r now_ms s c Hc) as [Hs' _].
    rewrite Hs', (process_converted_mistyped _ _ _ _ text Hhead). done.
Qed.

Lemma polled_record_cursor_witness :
  Samples.polled_lead !! "Id" = Some "00Qxx0000012345" ∧
  healthy (replay_store (Samples.subscriber_with Samples.ok_handler)) ∧
  Samples.polled_lead !! "ChangeEventHeader" = None ∧
  ReplayStore.get Samples.lead_channel
    (replay_store
       (snd (process_records Samples.lead_channel "Lead" [Samples.polled_lead]
               Samples.now_ms (Samples.subscriber_with Samples.ok_handler))))
  = inr (Some "2025-01-15T10:30:00.000+0000").
Proof.
  assert (healthy (replay_store (Samples.subscriber_with Samples.ok_handler)))
    as Hh by (by exists ∅).
  split; [reflexivity|]. split; [exact Hh|]. split; [reflexivity|].
  refine (proj1 (proj1 (polled_record_cursor
                   (Samples.subscriber_with Samples.ok_handler)
                   Samples.lead_channel "Lead" "00Qxx0000012345"
                   Samples.polled_lead Samples.now_ms eq_refl Hh) eq_refl)
            "2025-01-15T10:30:00.000+0000" eq_refl _).
  done.
Defined.

(** A record with a field named [ChangeEventHeader] and the stamp [s1]:
    the stamp does not become the cursor. *)
Example polled_header_field_sets_no_cursor :
  Samples.polled_with_header_field !! "SystemModstamp" = Some "s1" ∧
  process_records Samples.lead_channel "Lead" [Samples.polled_with_header_field]
    Samples.now_ms (Samples.subscriber_with Samples.ok_handler)
  = (inr tt,
     Subscriber (ReplayStore.Present (ReplayStore.JsonObject ∅) true true)
       {[Samples.lead_channel := Samples.ok_handler]} ∅ ∅
       {[("Lead", "AttributeError") := 1%nat]} ∅
       [ErrorRecorded Samples.lead_channel AttributeError]) ∧
  ReplayStore.get Samples.lead_channel
    (replay_store
       (snd (process_records Samples.lead_channel "Lead"
               [Samples.polled_with_header_field] Samples.now_ms
               (Samples.subscriber_with Samples.ok_handler))))
  = inr None.
Proof. split; [reflexivity|]. split; reflexivity. Qed.

(** The [try] block of the poll has run through. *)
Lemma poll_body_done s ch utcnow now q times times' s' :
  poll_body ch utcnow now q times s = (inr times', s') →
  let obj := _extract_object_name ch in
  ∃ records,
    q (_build_poll_query obj (default (utcnow +:+ "Z") (times !! obj)))
      = inr records ∧
    match last records with
    | None => times' = times ∧ s' = s
    | Some r =>
        process_records ch obj records now s = (inr tt, s') ∧
        ∃ stamp, r !! "SystemModstamp" = Some stamp ∧
                 times' = <[obj := stamp]> times
    end.
Proof.
  intros Hb. cbv zeta. unfold poll_body in Hb.
  set (obj := _extract_object_name ch) in *.
  destruct (q _) as [e|records]; [done|]. exists records. split; [done|].
  destruct (last records) as [r|]; [|by simplify_eq].
  destruct (process_records ch obj records now s) as [[e|[]] s1]; [done|].
  destruct (r !! "SystemModstamp") as [stamp|]; [|done].
  simplify_eq. eauto.
Qed.

Lemma poll_channel_escape s ch utcnow now q times e :
  fst (poll_channel ch utcnow now q times s) = inl e → is_Exception e = false.
Proof.
  unfold poll_channel.
  destruct (poll_body ch utcnow now q times s) as [[e'|times'] s']; [|done].
  destruct (is_Exception e') eqn:He; [done|]. by intros [= <-].
Qed.

(** X14: polling a channel moves the watermark of its object only to the
    [SystemModstamp] of the last record of the batch, and only when the
    whole batch was converted and processed; in every other case the
    watermark is what it was.  No [Exception] leaves the poll. *)
Theorem poll_moves_watermark_after_batch
    (s : t) (channel utcnow : string) (now_ms : Z)
    (sf_query : string → exn + list record) (times : gmap string string) :
  let obj := _extract_object_name channel in
  match fst (poll_channel channel utcnow now_ms sf_query times s) with
  | inl e => is_Exception e = false
  | inr times' =>
      times' = times ∨
      ∃ records r stamp,
        sf_query (_build_poll_query obj (default (utcnow +:+ "Z") (times !! obj)))
          = inr records ∧
        last records = Some r ∧
        r !! "SystemModstamp" = Some stamp ∧
        fst (process_records channel obj records now_ms s) = inr tt ∧
        times' = <[obj := stamp]> times
  end.
Proof.
  cbv zeta.
  destruct (fst (poll_channel channel utcnow now_ms sf_query times s))
    as [e|times'] eqn:Hp; [by eapply poll_channel_escape|].
  unfold poll_channel in Hp.
  destruct (poll_body channel utcnow now_ms sf_query times s)
    as [[e|times''] s'] eqn:Hb.
  - destruct (is_Exception e); simplify_eq/=. by left.
  - simpl in Hp. simplify_eq.
    destruct (poll_body_done _ _ _ _ _ _ _ _ Hb) as (records & Hq & Hl).
    destruct (last records) as [r|] eqn:Hlast.
    + destruct Hl as (Hrun & stamp & Hstamp & ->). right.
      exists records, r, stamp. by rewrite Hrun.
    + destruct Hl as [-> _]. by left.
Qed.

(** X15: a record without [Id] stops the batch where it stands: the
    records before it have been processed, those after it are not, the
    failure is counted as a [polling_error], and the watermarks stay as
    they were. *)
Theorem poll_stops_at_record_without_id
    (s s1 : t) (channel utcnow : string) (now_ms : Z)
    (sf_query : string → exn + list record) (times : gmap string string)
    (pre post : list record) (r : record) :
  let obj := _extract_object_name channel in
  sf_query (_build_poll_query obj (default (utcnow +:+ "Z") (times !! obj)))
    = inr (pre ++ r :: post) →
  r !! "Id" = None →
  process_records channel obj pre now_ms s = (inr tt, s1) →
  let s' := snd (poll_channel channel utcnow now_ms sf_query times s) in
  fst (poll_channel channel utcnow now_ms sf_query times s) = inr times ∧
  journal s' = journal s1 ∧
  replay_store s' = replay_store s1 ∧
  cdc_errors_total s' = bump (obj, "polling_error") (cdc_errors_total s1).
Proof.
  cbv zeta. intros Hq Hid Hpre.
  unfold poll_channel, poll_body. rewrite Hq.
  assert (is_Some (last (pre ++ r :: post))) as [r' ->].
  { rewrite last_app. simpl. destruct (last (r :: post)) eqn:Hl; [by eexists|].
    by apply last_None in Hl. }
  rewrite process_records_app. unfold bind. rewrite Hpre. simpl.
  unfold _convert_to_cdc_event. rewrite Hid. by simpl.
Qed.

Lemma poll_stops_at_record_without_id_witness :
  Samples.polled_without_id !! "Id" = None ∧
  fst (poll_channel Samples.lead_channel "2025-01-15T10:00:00" Samples.now_ms
         (λ _, inr ([Samples.polled_lead] ++ Samples.polled_without_id
                      :: [Samples.polled_lead]))
         ∅ (Samples.subscriber_with Samples.ok_handler))
  = inr ∅.
Proof.
  split; [reflexivity|].
  exact (proj1 (poll_stops_at_record_without_id
                  (Samples.subscriber_with Samples.ok_handler)
                  (snd (process_records Samples.lead_channel "Lead"
                          [Samples.polled_lead] Samples.now_ms
                          (Samples.subscriber_with Samples.ok_handler)))
                  Samples.lead_channel "2025-01-15T10:00:00" Samples.now_ms
                  (λ _, inr ([Samples.polled_lead] ++ Samples.polled_without_id
                               :: [Samples.polled_lead]))
                  ∅ [Samples.polled_lead] [Samples.polled_lead]
                  Samples.polled_without_id eq_refl eq_refl eq_refl)).
Defined.

(** X16: when the [try] block of a poll has run through on a healthy
    store and the batch was not empty, the watermark of the object is the
    [SystemModstamp] of the last record, and, provided that stamp is not
    empty and the last record has no field named [ChangeEventHeader], so
    is the cursor of the channel. *)
Theorem poll_watermark_is_cursor
    (s s' : t) (channel utcnow : string) (now_ms : Z)
    (sf_query : string → exn + list record) (times times' : gmap string string)
    (records : list record) :
  let obj := _extract_object_name channel in
  healthy (replay_store s) →
  sf_query (_build_poll_query obj (default (utcnow +:+ "Z") (times !! obj)))
    = inr records →
  records ≠ [] →
  poll_body channel utcnow now_ms sf_query times s = (inr times', s') →
  ∃ r stamp,
    last records = Some r ∧
    r !! "SystemModstamp" = Some stamp ∧
    times' !! obj = Some stamp ∧
    (stamp ≠ "" → r !! "ChangeEventHeader" = None →
     ReplayStore.get channel (replay_store s') = inr (Some stamp)).
Proof.
  cbv zeta. intros Hs Hq Hne Hb.
  destruct (poll_body_done _ _ _ _ _ _ _ _ Hb) as (records' & Hq' & Hl).
  rewrite Hq in Hq'. simplify_eq.
  set (obj := _extract_object_name channel) in *.
  destruct (last records') as [r|] eqn:Hlast;
    [|by apply last_None in Hlast].
  destruct Hl as (Hrun & stamp & Hstamp & ->).
  exists r, stamp. split; [done|]. split; [done|].
  split; [by rewrite lookup_insert_eq|]. intros Hstamp_ne Hhead.
  apply last_Some in Hlast as [front ->].
  rewrite process_records_app in Hrun. unfold bind in Hrun.
  pose proof (process_records_healthy channel obj front now_ms s Hs) as Hs1.
  destruct (process_records channel obj front now_ms s) as [[e|[]] s1]; [done|].
  simpl in Hs1.
  destruct (r !! "Id") as [id|] eqn:Hid.
  - destruct (convert_record channel obj r now_ms id Hid Hhead)
      as (c & ev & Hc & Hp & Hrid & _).
    destruct (process_one_record channel obj r now_ms s1 c Hc) as [Hsnd _].
    rewrite Hrun in Hsnd. simpl in Hsnd. rewrite Hsnd, Hp.
    rewrite Hstamp in Hrid. simpl in Hrid.
    apply (process_event_cursor s1 channel ev now_ms _ Hs1 Hrid).
    simpl. by rewrite bool_decide_eq_false_2.
  - simpl in Hrun. unfold _convert_to_cdc_event in Hrun.
    by rewrite Hid in Hrun.
Qed.

Lemma poll_watermark_is_cursor_witness :
  healthy (replay_store (Samples.subscriber_with Samples.ok_handler)) ∧
  [Samples.polled_lead] ≠ [] ∧
  ∃ r stamp,
    last [Samples.polled_lead] = Some r ∧
    r !! "SystemModstamp" = Some stamp ∧
    (<["Lead" := "2025-01-15T10:30:00.000+0000"]> ∅ : gmap string string)
      !! _extract_object_name Samples.lead_channel = Some stamp ∧
    (stamp ≠ "" → r !! "ChangeEventHeader" = None →
     ReplayStore.get Samples.lead_channel
       (replay_store
          (snd (poll_body Samples.lead_channel "2025-01-15T10:00:00"
                  Samples.now_ms (λ _, inr [Samples.polled_lead]) ∅
                  (Samples.subscriber_with Samples.ok_handler))))
     = inr (Some stamp)).
Proof.
  assert (healthy (replay_store (Samples.subscriber_with Samples.ok_handler)))
    as Hh by (by exists ∅).
  split; [exact Hh|]. split; [done|].
  exact (poll_watermark_is_cursor
           (Samples.subscriber_with Samples.ok_handler)
           (snd (poll_body Samples.lead_channel "2025-01-15T10:00:00"
                   Samples.now_ms (λ _, inr [Samples.polled_lead]) ∅
                   (Samples.subscriber_with Samples.ok_handler)))
           Samples.lead_channel "2025-01-15T10:00:00" Samples.now_ms
           (λ _, inr [Samples.polled_lead]) ∅
           (<["Lead" := "2025-01-15T10:30:00.000+0000"]> ∅)
           [Samples.polled_lead] Hh eq_refl
           (λ H : [Samples.polled_lead] = [], eq_ind [Samples.polled_lead]
              (λ l, match l with [] => False | _ :: _ => True end) I [] H)
           eq_refl).
Defined.

(** With a field named [ChangeEventHeader] in the last record the
    watermark moves and the cursor does not. *)
Example watermark_moves_without_cursor :
  fst (poll_body Samples.lead_channel "2025-01-15T10:00:00" Samples.now_ms
         (λ _, inr [Samples.polled_with_header_field]) ∅
         (Samples.subscriber_with Samples.ok_handler))
  = inr {["Lead" := "s1"]} ∧
  ReplayStore.get Samples.lead_channel
    (replay_store
       (snd (poll_body Samples.lead_channel "2025-01-15T10:00:00" Samples.now_ms
               (λ _, inr [Samples.polled_with_header_field]) ∅
               (Samples.subscriber_with Samples.ok_handler))))
  = inr None.
Proof. split; reflexivity. Qed.

(** X17: a tick over any list of channels lets no [Exception] through:
    when the [try] block of a channel fails with an [Exception] (a query
    that raises, a record without [Id]), the failure is counted as a
    [polling_error] of that channel's object and the tick goes on with the
    channels after it, the watermarks being what they were. *)
Theorem poll_tick_isolates_channels
    (s : t) (chs : list string) (utcnow : string) (now_ms : Z)
    (sf_query : string → exn + list record) (times : gmap string string) :
  (∀ e, fst (poll_channels chs utcnow now_ms sf_query times s) = inl e →
        is_Exception e = false) ∧
  (∀ ch rest e s1,
     chs = ch :: rest →
     poll_body ch utcnow now_ms sf_query times s = (inl e, s1) →
     is_Exception e = true →
     let counted :=
       snd (inc_errors (_extract_object_name ch) "polling_error" s1) in
     poll_channels chs utcnow now_ms sf_query times s
     = poll_channels rest utcnow now_ms sf_query times counted ∧
     cdc_errors_total counted
     = bump (_extract_object_name ch, "polling_error") (cdc_errors_total s1)) ∧
  (∀ ch e,
     sf_query (_build_poll_query (_extract_object_name ch)
                 (default (utcnow +:+ "Z")
                    (times !! _extract_object_name ch))) = inl e →
     poll_body ch utcnow now_ms sf_query times s = (inl e, s)).
Proof.
  split; [|split].
  - revert s times. induction chs as [|ch chs IH]; intros s times e; [done|].
    simpl.
    pose proof (poll_channel_escape s ch utcnow now_ms sf_query times) as Hesc.
    destruct (poll_channel ch utcnow now_ms sf_query times s)
      as [[e'|times'] s']; simpl in *.
    + intros [= ->]. by apply Hesc.
    + apply IH.
  - intros ch rest e s1 -> Hb He. cbv zeta. split; [|done].
    simpl. unfold poll_channel. by rewrite Hb, He.
  - intros ch e Hq. unfold poll_body. by rewrite Hq.
Qed.

Lemma poll_tick_isolates_channels_witness :
  poll_body "/data/LeadChangeEvent" "2025-01-15T10:00:00" Samples.now_ms
    Samples.failing_lead_query ∅ (Samples.subscriber_with Samples.ok_handler)
  = (inl (Exn "ConnectionError" "timed out"),
     Samples.subscriber_with Samples.ok_handler) ∧
  is_Exception (Exn "ConnectionError" "timed out") = true ∧
  poll_channels channels "2025-01-15T10:00:00" Samples.now_ms
    Samples.failing_lead_query ∅ (Samples.subscriber_with Samples.ok_handler)
  = poll_channels ["/data/TaskChangeEvent"; "/data/EmailMessageChangeEvent"]
      "2025-01-15T10:00:00" Samples.now_ms Samples.failing_lead_query ∅
      (snd (inc_errors "Lead" "polling_error"
              (Samples.subscriber_with Samples.ok_handler))).
Proof.
  assert (poll_body "/data/LeadChangeEvent" "2025-01-15T10:00:00"
            Samples.now_ms Samples.failing_lead_query ∅
            (Samples.subscriber_with Samples.ok_handler)
          = (inl (Exn "ConnectionError" "timed out"),
             Samples.subscriber_with Samples.ok_handler)) as Hb
    by reflexivity.
  split; [exact Hb|]. split; [reflexivity|].
  exact (proj1 (proj1 (proj2 (poll_tick_isolates_channels
                   (Samples.subscriber_with Samples.ok_handler) channels
                   "2025-01-15T10:00:00" Samples.now_ms Samples.failing_lead_query ∅))
                  "/data/LeadChangeEvent"
                  ["/data/TaskChangeEvent"; "/data/EmailMessageChangeEvent"]
                  (Exn "ConnectionError" "timed out")
                  (Samples.subscriber_with Samples.ok_handler)
                  eq_refl Hb eq_refl)).
Defined.

(** A tick in which the Lead query fails and the Task query returns a
    record: the failure is counted for Lead, and the Task channel has its
    watermark and its cursor at the end of the tick. *)
Example tick_goes_on_after_failed_query :
  let tick :=
    poll_tick "2025-01-15T10:00:00" Samples.now_ms Samples.lead_query_down ∅
      (Samples.subscriber_with Samples.ok_handler) in
  fst tick = inr {["Task" := "2025-01-15T10:30:00.000+0000"]} ∧
  cdc_errors_total (snd tick) = {[("Lead", "polling_error") := 1%nat]} ∧
  ReplayStore.get "/data/TaskChangeEvent" (replay_store (snd tick))
  = inr (Some "2025-01-15T10:30:00.000+0000").
Proof. vm_compute. repeat split; reflexivity. Qed.



End polling_facts.

(** ** The first-touch detector: what a call may change *)

Section first_touch_more.
Import FirstTouch.
Local Open Scope list_scope.

Lemma iso_not_later dt :
  parse_dt (Some (iso dt)) = Some (wall dt - wall dt mod second) ∧
  wall dt - wall dt mod second ≤ wall dt.
Proof.
  split; [done|]. pose proof (Z.mod_pos_bound (wall dt) second).
  unfold second in *. lia.
Qed.

(** A call leaves the record store as it was and does not report
    [updated], or it is the update of an aware candidate that is earlier
    than what was recorded. *)
Lemma detect_cases sf lead_id candidate_dt user_id src :
  let r := detect_first_touch sf lead_id candidate_dt user_id src in
  (snd r = sf ∧
   match fst r with Updated _ _ _ _ _ _ _ => False | _ => True end) ∨
  (∃ l created_dt t,
     leads sf !! lead_id = Some l ∧
     (∀ existing, parse_dt (First_Response_At__c l) = Some existing →
                  t < existing) ∧
     parse_dt (CreatedDate l) = Some created_dt ∧
     instant candidate_dt = Some t ∧
     update_error sf = None ∧
     r = (Updated lead_id candidate_dt user_id src
            (ttfr_minutes_of t created_dt)
            (total_seconds (t - created_dt))
            (bool_decide (is_Some (parse_dt (First_Response_At__c l)))),
          Client
            (<[lead_id :=
                 patch (Update (iso candidate_dt) user_id src
                          (ttfr_minutes_of t created_dt)) l]>
               (leads sf))
            (answers sf)
            (update_calls sf
               ++ [("Lead", lead_id,
                    Update (iso candidate_dt) user_id src
                      (ttfr_minutes_of t created_dt))])
            None)).
Proof.
  intros r. subst r. destruct (leads sf !! lead_id) as [l|] eqn:Hl.
  - destruct (instant candidate_dt) as [t|] eqn:Ht.
    + assert ((∃ existing, parse_dt (First_Response_At__c l) = Some existing ∧
                           existing ≤ t) ∨
              (∀ existing, parse_dt (First_Response_At__c l) = Some existing →
                           t < existing)) as [(existing & He & Hle)|Hlt].
      { destruct (parse_dt (First_Response_At__c l)) as [existing|]; [|by right].
        destruct (decide (existing ≤ t)); [left; eauto|].
        right. intros ? [= <-]. lia. }
      * left. by rewrite (detect_skip sf lead_id l existing _ t).
      * destruct (parse_dt (CreatedDate l)) as [created_dt|] eqn:Hc.
        -- destruct (update_error sf) as [e|] eqn:Hu.
           ++ left. by rewrite (detect_refused sf lead_id l created_dt _ t _ _ e).
           ++ right. exists l, created_dt, t. repeat split; try done.
              by apply (detect_update sf lead_id l).
        -- left. rewrite (detect_missing_created sf lead_id l); [done..| |done].
           intros existing He. exists t. split; [done|]. by apply Hlt.
    + left. apply get_record_lead in Hl.
      unfold detect_first_touch, le_dt, sub_dt. rewrite Hl, Ht.
      by repeat case_match.
  - left. unfold detect_first_touch, get_record.
    rewrite bool_decide_eq_true_2 by done. by rewrite Hl.
Qed.

(** A call leaves the answers to the queries alone, and a store that
    accepts updates goes on accepting them. *)
Lemma detect_answers sf lead_id candidate_dt user_id src :
  answers (snd (detect_first_touch sf lead_id candidate_dt user_id src))
  = answers sf.
Proof.
  destruct (detect_cases sf lead_id candidate_dt user_id src)
    as [[-> _]|(?&?&?&_&_&_&_&_& ->)]; done.
Qed.

Lemma detect_update_error sf lead_id candidate_dt user_id src :
  update_error sf = None →
  update_error (snd (detect_first_touch sf lead_id candidate_dt user_id src))
  = None.
Proof.
  destruct (detect_cases sf lead_id candidate_dt user_id src)
    as [[-> _]|(?&?&?&_&_&_&_&_& ->)]; done.
Qed.

(** Once a timestamp in UTC has been delivered, an aware timestamp that
    is not earlier changes nothing. *)
Lemma detect_after_detect sf lead_id dt dt' t' u u' src src' :
  in_utc dt →
  instant dt' = Some t' →
  wall dt ≤ t' →
  let sf1 := snd (detect_first_touch sf lead_id dt u src) in
  snd (detect_first_touch sf1 lead_id dt' u' src') = sf1.
Proof.
  intros Hutc Ht' Hle sf1. subst sf1.
  pose proof (instant_in_utc dt Hutc) as Ht.
  destruct (detect_cases sf lead_id dt u src)
    as [[Hsf Hnot]|(l & c & t & Hl & Hlt & Hc & Ht0 & Hu & Hr)].
  - rewrite Hsf.
    destruct (detect_cases sf lead_id dt' u' src')
      as [[Hsf' _]|(l & c & t0 & Hl & Hlt & Hc & Ht0 & Hu & _)]; [done|].
    exfalso. rewrite Ht' in Ht0. simplify_eq.
    rewrite (detect_update sf lead_id l c dt (wall dt) u src) in Hnot; try done.
    intros existing He. specialize (Hlt existing He). lia.
  - rewrite Hr. simpl.
    destruct (iso_not_later dt) as [Hp Hb].
    rewrite (detect_skip _ lead_id
               (patch (Update (iso dt) u src (ttfr_minutes_of t c)) l)
               (wall dt - wall dt mod second) dt' t' u' src');
      [done | simpl; by rewrite lookup_insert_eq | exact Hp | done | lia].
Qed.

(** X19: once a candidate whose timestamp is an aware datetime in UTC
    has been delivered, delivering an aware candidate that is not earlier
    (the same one again, or a later one, whoever the responder) changes
    nothing, neither the lead nor the log of updates. *)
Theorem later_delivery_changes_nothing
    (sf : sf_client) (lead_id : string) (c c' : candidate) (t' : datetime) :
  in_utc (responded_at c) →
  instant (responded_at c') = Some t' →
  wall (responded_at c) ≤ t' →
  deliver lead_id (deliver lead_id sf c) c' = deliver lead_id sf c.
Proof.
  intros Hutc Ht' Hle. unfold deliver. by eapply detect_after_detect.
Qed.

Lemma later_delivery_changes_nothing_witness :
  in_utc (responded_at Samples.late_task_candidate) ∧
  instant (responded_at Samples.late_task_candidate)
    = Some (Samples.on_day 10 30 0 + 500000) ∧
  wall (responded_at Samples.late_task_candidate)
    ≤ Samples.on_day 10 30 0 + 500000 ∧
  deliver Samples.lead_id
    (deliver Samples.lead_id (Samples.store_of Samples.new_lead)
       Samples.late_task_candidate)
    Samples.late_task_candidate
  = deliver Samples.lead_id (Samples.store_of Samples.new_lead)
      Samples.late_task_candidate.
Proof.
  assert (wall (responded_at Samples.late_task_candidate)
          ≤ Samples.on_day 10 30 0 + 500000) as Hle by reflexivity.
  split; [reflexivity|]. split; [reflexivity|]. split; [exact Hle|].
  exact (later_delivery_changes_nothing (Samples.store_of Samples.new_lead)
           Samples.lead_id Samples.late_task_candidate
           Samples.late_task_candidate (Samples.on_day 10 30 0 + 500000)
           eq_refl eq_refl Hle).
Defined.

(** A candidate at an offset other than zero is written with its
    wall-clock fields, which read back as a later instant: delivered a
    second time, the same candidate is written again. *)
Example offset_candidate_updates_twice :
  length (update_calls
            (deliver Samples.lead_id (Samples.store_of Samples.new_lead)
               (Candidate Samples.offset_candidate_dt "U1" "Task"))) = 1%nat ∧
  length (update_calls
            (deliver Samples.lead_id
               (deliver Samples.lead_id (Samples.store_of Samples.new_lead)
                  (Candidate Samples.offset_candidate_dt "U1" "Task"))
               (Candidate Samples.offset_candidate_dt "U1" "Task"))) = 2%nat.
Proof. split; vm_compute; reflexivity. Qed.

(** X20: a lead that has a first response recorded still has one after
    any call: the one it had, or, the candidate being aware and strictly
    earlier than it, the wall-clock second of the candidate.  For a
    candidate in UTC, then, the recorded first response never moves
    later. *)
Theorem first_response_never_later
    (sf : sf_client) (lead_id : string) (candidate_dt : pydatetime)
    (existing : datetime) (user_id src : string) :
  first_response_at sf lead_id = Some existing →
  let sf' := snd (detect_first_touch sf lead_id candidate_dt user_id src) in
  ∃ now_recorded,
    first_response_at sf' lead_id = Some now_recorded ∧
    (now_recorded = existing ∨
     ∃ t, instant candidate_dt = Some t ∧ t < existing ∧
          now_recorded = wall candidate_dt - wall candidate_dt mod second) ∧
    (in_utc candidate_dt → now_recorded ≤ existing).
Proof.
  intros He. cbv zeta. unfold first_response_at in He.
  destruct (detect_cases sf lead_id candidate_dt user_id src)
    as [[-> _]|(l & c & t & Hl & Hlt & Hc & Ht & Hu & ->)].
  - exists existing. unfold first_response_at. split; [done|].
    split; [by left|]. intros _. lia.
  - rewrite Hl in He. simpl. unfold first_response_at. simpl.
    rewrite lookup_insert_eq. simpl. eexists. split; [done|].
    specialize (Hlt existing He). split.
    + right. by exists t.
    + intros Hutc. rewrite (instant_in_utc _ Hutc) in Ht. simplify_eq.
      pose proof (Z.mod_pos_bound (wall candidate_dt) second).
      unfold second in *. lia.
Qed.

Lemma first_response_never_later_witness :
  first_response_at (Samples.store_of Samples.answered_lead) Samples.lead_id
    = Some (Samples.on_day 10 20 0) ∧
  ∃ now_recorded,
    first_response_at
      (snd (detect_first_touch (Samples.store_of Samples.answered_lead)
              Samples.lead_id (Samples.on_day 10 10 0) "U1" "Task"))
      Samples.lead_id = Some now_recorded ∧
    (now_recorded = Samples.on_day 10 20 0 ∨
     ∃ t, instant (Samples.on_day 10 10 0) = Some t ∧
          t < Samples.on_day 10 20 0 ∧
          now_recorded
          = wall (Samples.on_day 10 10 0)
            - wall (Samples.on_day 10 10 0) mod second) ∧
    (in_utc (Samples.on_day 10 10 0) → now_recorded ≤ Samples.on_day 10 20 0).
Proof.
  split; [reflexivity|].
  exact (first_response_never_later (Samples.store_of Samples.answered_lead)
           Samples.lead_id (Samples.on_day 10 10 0) (Samples.on_day 10 20 0)
           "U1" "Task" eq_refl).
Defined.

(** With an offset other than zero it can: 15:00:00 at +05:30 is 09:30:00
    in UTC, earlier than the response recorded at 10:20:00, and it is
    recorded as 15:00:00. *)
Example offset_candidate_moves_response_later :
  instant Samples.offset_candidate_dt = Some (Samples.on_day 9 30 0) ∧
  first_response_at (Samples.store_of Samples.answered_lead) Samples.lead_id
    = Some (Samples.on_day 10 20 0) ∧
  first_response_at
    (snd (detect_first_touch (Samples.store_of Samples.answered_lead)
            Samples.lead_id Samples.offset_candidate_dt "U1" "Task"))
    Samples.lead_id
  = Some (Samples.on_day 15 0 0).
Proof. split; [reflexivity|]. split; vm_compute; reflexivity. Qed.

(** X21: [detect_first_touch] changes the record store only when it
    reports [updated], and then by the one [update_record] that went
    through, on the lead it was asked about and with the values it
    reports.  With every other outcome ([skipped], an error, or a
    [TypeError] that leaves the call) the record store is as it was; that
    includes the call of [update_record] that raised: its error is the
    result, and nothing is written. *)
Theorem one_write_iff_updated
    (sf : sf_client) (lead_id : string) (candidate_dt : pydatetime)
    (user_id src : string) :
  let r := detect_first_touch sf lead_id candidate_dt user_id src in
  match fst r with
  | Updated id first_at user source_ minutes _ _ =>
      id = lead_id ∧ first_at = candidate_dt ∧ user = user_id ∧ source_ = src ∧
      update_error sf = None ∧
      ∃ l, leads sf !! lead_id = Some l ∧
           snd r
           = Client
               (<[lead_id :=
                    patch (Update (iso candidate_dt) user_id src minutes) l]>
                  (leads sf))
               (answers sf)
               (update_calls sf
                  ++ [("Lead", lead_id,
                       Update (iso candidate_dt) user_id src minutes)])
               None
  | _ => snd r = sf
  end ∧
  ∀ l created_dt t e,
    leads sf !! lead_id = Some l →
    (∀ existing, parse_dt (First_Response_At__c l) = Some existing →
                 t < existing) →
    instant candidate_dt = Some t →
    parse_dt (CreatedDate l) = Some created_dt →
    update_error sf = Some e →
    r = (Error (str_exn e), sf).
Proof.
  cbv zeta. split.
  - destruct (detect_cases sf lead_id candidate_dt user_id src)
      as [[Hsf Hnot]|(l & c & t & Hl & _ & _ & _ & Hu & ->)].
    + by destruct (fst (detect_first_touch sf lead_id candidate_dt user_id src)).
    + simpl. repeat split; try done. by exists l.
  - intros l created_dt t e Hl Hlt Ht Hc Hu. by eapply detect_refused.
Qed.

Lemma one_write_iff_updated_witness :
  leads (Samples.refusing_store_of Samples.new_lead) !! Samples.lead_id
    = Some Samples.new_lead ∧
  instant (Samples.on_day 10 30 0) = Some (Samples.on_day 10 30 0) ∧
  parse_dt (CreatedDate Samples.new_lead) = Some (Samples.on_day 10 0 0) ∧
  update_error (Samples.refusing_store_of Samples.new_lead)
    = Some (Exn "HTTPError" "503 Server Error: Service Unavailable") ∧
  detect_first_touch (Samples.refusing_store_of Samples.new_lead)
    Samples.lead_id (Samples.on_day 10 30 0) "U1" "Task"
  = (Error "503 Server Error: Service Unavailable",
     Samples.refusing_store_of Samples.new_lead).
Proof.
  split; [reflexivity|]. split; [reflexivity|]. split; [reflexivity|].
  split; [reflexivity|].
  refine (proj2 (one_write_iff_updated
                   (Samples.refusing_store_of Samples.new_lead)
                   Samples.lead_id (Samples.on_day 10 30 0) "U1" "Task")
            Samples.new_lead (Samples.on_day 10 0 0) (Samples.on_day 10 30 0)
            (Exn "HTTPError" "503 Server Error: Service Unavailable")
            eq_refl _ eq_refl eq_refl eq_refl).
  intros existing Hex. simpl in Hex. discriminate Hex.
Defined.

(** The update that goes through, on the same lead. *)
Example accepted_update_is_logged :
  update_calls
    (snd (detect_first_touch (Samples.store_of Samples.new_lead)
            Samples.lead_id (Samples.on_day 10 30 0) "U1" "Task"))
  = [("Lead", Samples.lead_id,
      Update (IsoText (Samples.on_day 10 30 0)) "U1" "Task" 30)].
Proof. vm_compute. reflexivity. Qed.

(** X22: the four response fields change together or not at all.  After
    a call the lead is as it was, or the candidate is aware and the lead
    has the candidate's timestamp as [iso] writes it, the responder, the
    source and the minutes [int(total_seconds() / 60)], with [Id] and
    [CreatedDate] as before; no other lead is touched. *)
Theorem four_fields_together
    (sf : sf_client) (lead_id : string) (l : lead) (candidate_dt : pydatetime)
    (user_id src : string) :
  leads sf !! lead_id = Some l →
  let sf' := snd (detect_first_touch sf lead_id candidate_dt user_id src) in
  (leads sf' !! lead_id = Some l ∨
   ∃ created_dt t,
     parse_dt (CreatedDate l) = Some created_dt ∧
     instant candidate_dt = Some t ∧
     leads sf' !! lead_id
     = Some (Lead (Id l) (CreatedDate l) (Some (iso candidate_dt))
               (Some user_id) (Some src)
               (Some (int_of (div_by (total_seconds (t - created_dt)) 60))))) ∧
  ∀ other, other ≠ lead_id → leads sf' !! other = leads sf !! other.
Proof.
  intros Hl. cbv zeta.
  destruct (detect_cases sf lead_id candidate_dt user_id src)
    as [[-> _]|(l' & c & t & Hl' & _ & Hc & Ht & _ & ->)];
    simpl; [split; [by left|done]|].
  rewrite Hl in Hl'. simplify_eq. split.
  - right. exists c, t. split; [done|]. split; [done|].
    by rewrite lookup_insert_eq.
  - intros other Hne. by rewrite lookup_insert_ne.
Qed.

Lemma four_fields_together_witness :
  leads Samples.two_lead_store !! Samples.lead_id = Some Samples.answered_lead ∧
  (leads (snd (detect_first_touch Samples.two_lead_store Samples.lead_id
                 (Samples.on_day 10 10 0) "U1" "Task")) !! Samples.lead_id
   = Some Samples.answered_lead ∨
   ∃ created_dt t,
     parse_dt (CreatedDate Samples.answered_lead) = Some created_dt ∧
     instant (Samples.on_day 10 10 0) = Some t ∧
     leads (snd (detect_first_touch Samples.two_lead_store Samples.lead_id
                   (Samples.on_day 10 10 0) "U1" "Task")) !! Samples.lead_id
     = Some (Lead (Id Samples.answered_lead) (CreatedDate Samples.answered_lead)
               (Some (iso (Samples.on_day 10 10 0))) (Some "U1") (Some "Task")
               (Some (int_of (div_by (total_seconds (t - created_dt)) 60))))) ∧
  ∀ other, other ≠ Samples.lead_id →
    leads (snd (detect_first_touch Samples.two_lead_store Samples.lead_id
                  (Samples.on_day 10 10 0) "U1" "Task")) !! other
    = leads Samples.two_lead_store !! other.
Proof.
  split; [reflexivity|].
  exact (four_fields_together Samples.two_lead_store Samples.lead_id
           Samples.answered_lead (Samples.on_day 10 10 0) "U1" "Task" eq_refl).
Defined.

(** On the store of two leads: the earlier candidate is written into the
    four fields of the lead asked about, the other lead is as it was. *)
Example earlier_candidate_rewrites_one_lead :
  leads (snd (detect_first_touch Samples.two_lead_store Samples.lead_id
                (Samples.on_day 10 10 0) "U1" "Task")) !! Samples.lead_id
  = Some (Lead Samples.lead_id (Some (IsoText (Samples.on_day 10 0 0)))
            (Some (IsoText (Samples.on_day 10 10 0))) (Some "U1") (Some "Task")
            (Some 10)) ∧
  leads (snd (detect_first_touch Samples.two_lead_store Samples.lead_id
                (Samples.on_day 10 10 0) "U1" "Task")) !! "00Qxx0000067890"
  = Some Samples.other_lead.
Proof. split; vm_compute; reflexivity. Qed.

(** X23: when only one of the two queries yields a candidate (the other
    is empty, or its first row has a date that does not parse), that
    candidate is the one handed to [detect_first_touch]. *)
Theorem single_source_is_used
    (sf : sf_client) (lead_id : string) (tasks emails : list row)
    (dt : datetime) :
  query sf (task_soql lead_id) = inr tasks →
  query sf (email_soql lead_id) = inr emails →
  (earliest_dt tasks = Some dt → earliest_dt emails = None →
   find_and_record_first_touch sf lead_id
   = (Some (fst (detect_first_touch sf lead_id dt (first_user tasks) "Task")),
      snd (detect_first_touch sf lead_id dt (first_user tasks) "Task"))) ∧
  (earliest_dt tasks = None → earliest_dt emails = Some dt →
   find_and_record_first_touch sf lead_id
   = (Some (fst (detect_first_touch sf lead_id dt (first_user emails) "EmailMessage")),
      snd (detect_first_touch sf lead_id dt (first_user emails) "EmailMessage"))).
Proof.
  intros Ht He. unfold find_and_record_first_touch. rewrite Ht, He.
  split; by intros -> ->.
Qed.

Lemma single_source_is_used_witness :
  query (Samples.store_with_bad_task Samples.new_lead)
    (task_soql Samples.lead_id)
  = inr [Row "00T" (Some (Unparseable "soon")) "U1"] ∧
  query (Samples.store_with_bad_task Samples.new_lead)
    (email_soql Samples.lead_id)
  = inr [Row "02s" (Some (IsoText (Samples.on_day 10 25 0))) "U2"] ∧
  fst (find_and_record_first_touch
         (Samples.store_with_bad_task Samples.new_lead) Samples.lead_id)
  = Some (fst (detect_first_touch (Samples.store_with_bad_task Samples.new_lead)
                 Samples.lead_id (Samples.on_day 10 25 0) "U2" "EmailMessage")).
Proof.
  split; [reflexivity|]. split; [reflexivity|].
  exact (f_equal fst
           (proj2 (single_source_is_used
                     (Samples.store_with_bad_task Samples.new_lead)
                     Samples.lead_id _ _ (Samples.on_day 10 25 0)
                     eq_refl eq_refl) eq_refl eq_refl)).
Defined.

(** X24: [find_and_record_first_touch] writes at most once, and only to
    the lead it was asked about: when its result is [updated] the log of
    updates has grown by that one call, and with any other outcome (no
    candidate, a skip, a failed query, a missing lead or creation date) the
    record store is untouched. *)
Theorem find_and_record_writes_at_most_once
    (sf : sf_client) (lead_id : string) :
  let r := find_and_record_first_touch sf lead_id in
  match fst r with
  | Some (Updated id first_at user source_ minutes _ _) =>
      id = lead_id ∧
      update_calls (snd r)
      = update_calls sf
          ++ [("Lead", lead_id, Update (iso first_at) user source_ minutes)]
  | _ => snd r = sf
  end.
Proof.
  cbv zeta.
  assert (∀ dt u src,
            match fst (detect_first_touch sf lead_id dt u src) with
            | Updated id first_at user source_ minutes _ _ =>
                id = lead_id ∧
                update_calls (snd (detect_first_touch sf lead_id dt u src))
                = update_calls sf
                    ++ [("Lead", lead_id, Update (iso first_at) user source_ minutes)]
            | _ => snd (detect_first_touch sf lead_id dt u src) = sf
            end) as Hdetect.
  { intros dt u src.
    destruct (detect_cases sf lead_id dt u src)
      as [[Hsf Hnot]|(?&?&?&_&_&_&_&_& ->)]; [|done].
    by destruct (fst (detect_first_touch sf lead_id dt u src)). }
  unfold find_and_record_first_touch.
  destruct (query sf (task_soql lead_id)) as [e|tasks]; [done|].
  destruct (query sf (email_soql lead_id)) as [e|emails]; [done|].
  destruct (earliest_dt tasks) as [task_dt|];
    destruct (earliest_dt emails) as [email_dt|]; simpl; try done.
  - destruct (task_dt <=? email_dt); apply Hdetect.
  - apply Hdetect.
  - apply Hdetect.
Qed.

(** X25: running [find_and_record_first_touch] a second time on what the
    first run left changes nothing. *)
Theorem find_and_record_twice
    (sf : sf_client) (lead_id : string) :
  snd (find_and_record_first_touch
         (snd (find_and_record_first_touch sf lead_id)) lead_id)
  = snd (find_and_record_first_touch sf lead_id).
Proof.
  unfold find_and_record_first_touch at 2 3. unfold query.
  destruct (answers sf (task_soql lead_id)) as [e|tasks] eqn:Ht.
  { simpl. unfold find_and_record_first_touch, query. by rewrite Ht. }
  destruct (answers sf (email_soql lead_id)) as [e|emails] eqn:He.
  { simpl. unfold find_and_record_first_touch, query. by rewrite Ht, He. }
  assert (∀ (dt : datetime) u src,
            snd (find_and_record_first_touch
                   (snd (detect_first_touch sf lead_id (utc dt) u src)) lead_id)
            = snd (detect_first_touch
                     (snd (detect_first_touch sf lead_id (utc dt) u src))
                     lead_id (utc dt) u src) →
            snd (find_and_record_first_touch
                   (snd (detect_first_touch sf lead_id (utc dt) u src)) lead_id)
            = snd (detect_first_touch sf lead_id (utc dt) u src)) as Hagain.
  { intros dt u src ->.
    apply (detect_after_detect sf lead_id (utc dt) (utc dt) dt);
      [done | apply instant_utc | done]. }
  destruct (earliest_dt tasks) as [task_dt|] eqn:Htd;
    destruct (earliest_dt emails) as [email_dt|] eqn:Hed; simpl.
  - destruct (task_dt <=? email_dt) eqn:Hcmp; simpl; apply Hagain;
      unfold find_and_record_first_touch, query;
      rewrite detect_answers, Ht, He, Htd, Hed, Hcmp; done.
  - apply Hagain. unfold find_and_record_first_touch, query.
    by rewrite detect_answers, Ht, He, Htd, Hed.
  - apply Hagain. unfold find_and_record_first_touch, query.
    by rewrite detect_answers, Ht, He, Htd, Hed.
  - unfold find_and_record_first_touch, query. by rewrite Ht, He, Htd, Hed.
Qed.

(** Delivering a whole-second candidate in UTC to the lead as it
    started, or as another such candidate left it. *)
Lemma deliver_over sf lead_id l created_dt c :
  parse_dt (CreatedDate l) = Some created_dt →
  First_Response_At__c l = None →
  in_utc (responded_at c) →
  whole_second (wall (responded_at c)) →
  update_error sf = None →
  (leads sf !! lead_id = Some l →
   leads (deliver lead_id sf c) !! lead_id
   = Some (Recorded.with_response l created_dt c)) ∧
  (∀ c0, in_utc (responded_at c0) →
         whole_second (wall (responded_at c0)) →
         leads sf !! lead_id = Some (Recorded.with_response l created_dt c0) →
         leads (deliver lead_id sf c) !! lead_id
         = Some (Recorded.with_response l created_dt
                   (if decide (wall (responded_at c0) ≤ wall (responded_at c))
                    then c0 else c))).
Proof.
  intros Hc Hat Hutc Hw Hu. unfold deliver.
  pose proof (instant_in_utc _ Hutc) as Ht.
  pose proof (moment_in_utc _ Hutc) as Hm.
  split.
  - intros Hl.
    rewrite (detect_update sf lead_id l created_dt _ (wall (responded_at c)));
      [|done| |done..].
    2:{ intros existing. by rewrite Hat. }
    simpl. rewrite lookup_insert_eq. unfold patch, Recorded.with_response.
    simpl. by rewrite Hm.
  - intros c0 Hutc0 Hw0 Hl.
    assert (parse_dt (First_Response_At__c (Recorded.with_response l created_dt c0))
            = Some (wall (responded_at c0))) as Hp.
    { change (parse_dt (Some (iso (responded_at c0)))
              = Some (wall (responded_at c0))).
      by rewrite (iso_whole_second _ Hw0). }
    destruct (decide (wall (responded_at c0) ≤ wall (responded_at c)))
      as [Hle|Hgt].
    + by rewrite (detect_skip sf lead_id _ (wall (responded_at c0)) _
                    (wall (responded_at c)) _ _ Hl Hp Ht Hle).
    + rewrite (detect_update sf lead_id _ created_dt _ (wall (responded_at c))
                 _ _ Hl); [| |done..].
      2:{ intros existing. rewrite Hp. intros [= <-]. lia. }
      simpl. rewrite lookup_insert_eq. unfold patch, Recorded.with_response.
      simpl. by rewrite Hm.
Qed.

Lemma deliver_update_error sf lead_id c :
  update_error sf = None → update_error (deliver lead_id sf c) = None.
Proof. apply detect_update_error. Qed.

(** X26: the candidates' timestamps being aware datetimes in UTC and
    whole seconds, and the record store accepting updates: when one
    candidate of the sequence is strictly earlier than all the others, the
    lead ends with that candidate in all four response fields (timestamp,
    responder, source, minutes), wherever it stands in the sequence and
    however often the candidates are repeated. *)
Theorem strictly_earliest_wins_all_fields
    (sf : sf_client) (lead_id : string) (l : lead) (created_dt : datetime)
    (cs : list candidate) (c : candidate) :
  leads sf !! lead_id = Some l →
  First_Response_At__c l = None →
  parse_dt (CreatedDate l) = Some created_dt →
  update_error sf = None →
  (∀ c', c' ∈ cs → in_utc (responded_at c') ∧
                   whole_second (wall (responded_at c'))) →
  c ∈ cs →
  (∀ c', c' ∈ cs → c' = c ∨ wall (responded_at c) < wall (responded_at c')) →
  leads (deliver_all lead_id cs sf) !! lead_id
  = Some (Lead (Id l) (CreatedDate l)
            (Some (IsoText (wall (responded_at c))))
            (Some (responder_id c)) (Some (source c))
            (Some (int_of
                     (div_by
                        (total_seconds (wall (responded_at c) - created_dt))
                        60)))).
Proof.
  intros Hl Hat Hc Hu Hw Hin Hmin.
  assert (Recorded.with_response l created_dt c
          = Lead (Id l) (CreatedDate l)
              (Some (IsoText (wall (responded_at c))))
              (Some (responder_id c)) (Some (source c))
              (Some (int_of
                       (div_by
                          (total_seconds (wall (responded_at c) - created_dt))
                          60)))) as <-.
  { destruct (Hw c Hin) as [Hutc Hws]. unfold Recorded.with_response.
    by rewrite (iso_whole_second _ Hws), (moment_in_utc _ Hutc). }
  apply list_elem_of_split in Hin as (pre & post & ->).
  unfold deliver_all. rewrite foldl_app. simpl.
  set (good c' := in_utc (responded_at c') ∧
                  whole_second (wall (responded_at c')) ∧
                  (c' = c ∨ wall (responded_at c) < wall (responded_at c'))).
  assert (∀ pre sf,
            (∀ c', c' ∈ pre → good c') →
            update_error sf = None →
            (leads sf !! lead_id = Some l ∨
             ∃ c0, good c0 ∧
                   leads sf !! lead_id = Some (Recorded.with_response l created_dt c0)) →
            update_error (foldl (deliver lead_id) sf pre) = None ∧
            (leads (foldl (deliver lead_id) sf pre) !! lead_id = Some l ∨
             ∃ c0, good c0 ∧
                   leads (foldl (deliver lead_id) sf pre) !! lead_id
                   = Some (Recorded.with_response l created_dt c0))) as Hbefore.
  { clear -Hc Hat. intros pre.
    induction pre as [|c' pre IH]; intros sf Hall Hu Hst; [done|].
    simpl. apply IH.
    - intros c'' Hin''. apply Hall. by apply list_elem_of_further.
    - by apply deliver_update_error.
    - pose proof (Hall c' (list_elem_of_here _ _)) as Hg'.
      pose proof Hg' as (Hutc' & Hw' & Hc').
      destruct (deliver_over sf lead_id l created_dt c' Hc Hat Hutc' Hw' Hu)
        as [Hfresh Hover].
      right. destruct Hst as [Hl|(c0 & Hg0 & Hl)].
      + exists c'. split; [done|]. by apply Hfresh.
      + pose proof Hg0 as (Hutc0 & Hw0 & Hc0).
        rewrite (Hover c0 Hutc0 Hw0 Hl). case_decide; eauto. }
  assert (∀ post sf,
            (∀ c', c' ∈ post → good c') →
            good c →
            update_error sf = None →
            leads sf !! lead_id = Some (Recorded.with_response l created_dt c) →
            leads (foldl (deliver lead_id) sf post) !! lead_id
            = Some (Recorded.with_response l created_dt c)) as Hafter.
  { clear -Hc Hat. intros post.
    induction post as [|c' post IH]; intros sf Hall Hgood Hu Hst; [done|].
    simpl. apply IH; [|done| |].
    - intros c'' Hin''. apply Hall. by apply list_elem_of_further.
    - by apply deliver_update_error.
    - destruct (Hall c' (list_elem_of_here _ _)) as (Hutc' & Hw' & Hc').
      destruct Hgood as (Hutc0 & Hw0 & _).
      destruct (deliver_over sf lead_id l created_dt c' Hc Hat Hutc' Hw' Hu)
        as [_ Hover].
      rewrite (Hover c Hutc0 Hw0 Hst). case_decide; [done|].
      destruct Hc' as [->|?]; [done|lia]. }
  assert (∀ c', c' ∈ pre ++ c :: post → good c') as Hall.
  { intros c' Hin'. destruct (Hw c' Hin'). repeat split; try done.
    by apply Hmin. }
  assert (good c) as Hgood.
  { apply Hall. rewrite elem_of_app, elem_of_cons. auto. }
  destruct (Hbefore pre sf) as [Hu1 Hst1]; [|done|by left|].
  { intros c' Hin'. apply Hall. rewrite elem_of_app. auto. }
  destruct Hgood as (Hutc0 & Hw0 & Hself).
  destruct (deliver_over (foldl (deliver lead_id) sf pre) lead_id l created_dt c
              Hc Hat Hutc0 Hw0 Hu1) as [Hfresh Hover].
  apply Hafter.
  - intros c' Hin'. apply Hall. rewrite elem_of_app, elem_of_cons. auto.
  - done.
  - by apply deliver_update_error.
  - destruct Hst1 as [Hl'|(c0 & (Hutc1 & Hw1 & Hc0) & Hl')].
    + by apply Hfresh.
    + rewrite (Hover c0 Hutc1 Hw1 Hl'). case_decide as Hle; [|done].
      destruct Hc0 as [->|?]; [done|lia].
Qed.

Lemma strictly_earliest_wins_all_fields_witness :
  leads (Samples.store_of Samples.new_lead) !! Samples.lead_id
    = Some Samples.new_lead ∧
  Samples.email_candidate
    ∈ [Samples.task_candidate; Samples.email_candidate; Samples.task_candidate] ∧
  leads (deliver_all Samples.lead_id
           [Samples.task_candidate; Samples.email_candidate; Samples.task_candidate]
           (Samples.store_of Samples.new_lead)) !! Samples.lead_id
  = Some (Lead (Id Samples.new_lead) (CreatedDate Samples.new_lead)
            (Some (IsoText (wall (responded_at Samples.email_candidate))))
            (Some (responder_id Samples.email_candidate))
            (Some (source Samples.email_candidate))
            (Some (int_of
                     (div_by
                        (total_seconds
                           (wall (responded_at Samples.email_candidate)
                            - Samples.on_day 10 0 0))
                        60)))).
Proof.
  assert (Samples.email_candidate
            ∈ [Samples.task_candidate; Samples.email_candidate;
               Samples.task_candidate]) as Hin.
  { apply list_elem_of_further, list_elem_of_here. }
  split; [reflexivity|]. split; [exact Hin|].
  apply (strictly_earliest_wins_all_fields (Samples.store_of Samples.new_lead)
           Samples.lead_id Samples.new_lead (Samples.on_day 10 0 0));
    [reflexivity | reflexivity | reflexivity | reflexivity | | exact Hin | ].
  - intros c' Hc'. repeat (apply elem_of_cons in Hc' as [->|Hc']);
      [split; reflexivity..|]. by apply elem_of_nil in Hc'.
  - intros c' Hc'. repeat (apply elem_of_cons in Hc' as [->|Hc']).
    + right. reflexivity.
    + by left.
    + right. reflexivity.
    + by apply elem_of_nil in Hc'.
Defined.

(** The same sequence, evaluated: the Email of 10:25:00 by U2, 25
    minutes after the creation. *)
Example strictly_earliest_sample :
  leads (deliver_all Samples.lead_id
           [Samples.task_candidate; Samples.email_candidate; Samples.task_candidate]
           (Samples.store_of Samples.new_lead)) !! Samples.lead_id
  = Some (Lead Samples.lead_id (Some (IsoText (Samples.on_day 10 0 0)))
            (Some (IsoText (Samples.on_day 10 25 0))) (Some "U2")
            (Some "EmailMessage") (Some 25)).
Proof. vm_compute. reflexivity. Qed.

End first_touch_more.
